(** * logid::backend::hidpp10::ReceiverMonitor

    A shallow embedding of [src/logid/backend/hidpp10/ReceiverMonitor.cpp].

    The monitor owns a receiver (the protocol client), registers event
    handlers on the receiver's raw device and on the receiver itself, and
    keeps a small pairing state machine behind [_pair_mutex].  Closures
    are represented by the data they capture; [run_task] puts a closure
    in a pool of pending tasks from which any one may be executed next;
    every call that leaves the file (a hook of the subclass, a command
    of the receiver, a log line) is appended to [observed]. *)

From Stdlib Require Import ZArith List String Bool Lia Permutation.
Import ListNotations.
Local Open Scope Z_scope.

(** ** Protocol constants

    [Offset::*], [Report::Type::*] and the [Receiver] event sub-identifiers
    are declared in headers of the protocol client; the monitor only
    compares bytes against them, so they are kept abstract. *)
Class Constants := {
  Offset_Type : nat;
  Offset_DeviceIndex : nat;
  Offset_SubID : nat;
  Type_Short : Z;
  Type_Long : Z;
  DeviceDisconnection : Z;
  DeviceConnection : Z;
  PairStatus : Z;
  PasskeyRequest : Z;
  DeviceDiscovered : Z;
  DiscoveryStatus : Z;
  BoltPairStatus : Z
}.

(** [std::vector<uint8_t>]: a raw report as delivered by the raw device. *)
Definition RawReport := list Z.

(** [report[off]] on a vector: undefined past the end ([None]). *)
Definition at_ (report : RawReport) (off : nat) : option Z :=
  nth_error report off.

(** Modelled from the spec: class [hidpp::Report] (its header is not among
    the sources).  A decoded frame with fields type, subId, deviceIndex and
    a payload; the constructor from raw bytes reads the header bytes at
    [Offset::Type], [Offset::DeviceIndex], [Offset::SubID]. *)
Record Report := {
  type : Z;
  deviceIndex : Z;
  subId : Z;
  payload : list Z
}.

Definition Report_of_raw `{Constants} (raw : RawReport) : Report :=
  {| type := nth Offset_Type raw 0;
     deviceIndex := nth Offset_DeviceIndex raw 0;
     subId := nth Offset_SubID raw 0;
     payload := raw |}.

(** Modelled from the spec: [hidpp::DeviceConnectionEvent] (declared in a
    header that is not among the sources), with the four fields of §3. *)
Record DeviceConnectionEvent := {
  index : Z;
  linkEstablished : bool;
  withPayload : bool;
  fromTimeoutCheck : bool
}.

(** The two decoded status events; only the flag read by the monitor. *)
Record DiscoveryStatusEvent := { discovering : bool }.
Record PairStatusEvent := { pairing : bool }.
Definition BoltPairStatusEvent := PairStatusEvent.

Inductive PairState := NotPairing | Discovering | FindingPasskey | Pairing.

Definition PairState_eqb (a b : PairState) : bool :=
  match a, b with
  | NotPairing, NotPairing | Discovering, Discovering
  | FindingPasskey, FindingPasskey | Pairing, Pairing => true
  | _, _ => false
  end.

(** What a call that may throw did: it returned, or it threw a
    [std::exception] whose [what()] is the string. *)
Inductive Outcome := Returned | Threw (what : string).

(** ** The receiver (protocol client) and the hooks of the subclass *)

(** The part of [Receiver] the monitor uses: whether it is a Bolt
    receiver, the path of its raw device, and the static decoders. *)
Class ReceiverClient (DeviceDiscoveryEvent Passkey DeviceDisconnectionEvent : Type) := {
  bolt : bool;
  rawPath : string;
  empty_discovery_event : DeviceDiscoveryEvent;
  deviceConnectionEvent : Report -> DeviceConnectionEvent;
  deviceDisconnectionEvent : Report -> DeviceDisconnectionEvent;
  fillDeviceDiscoveryEvent :
    DeviceDiscoveryEvent -> Report -> DeviceDiscoveryEvent * bool;
  passkeyEvent : Report -> Passkey;
  discoveryStatusEvent : Report -> DiscoveryStatusEvent;
  pairStatusEvent : Report -> PairStatusEvent;
  boltPairStatusEvent : Report -> BoltPairStatusEvent
}.

(** The pure virtual methods of [ReceiverMonitor], acting on the state [U]
    of the subclass. *)
Class Hooks (DeviceDiscoveryEvent Passkey DeviceDisconnectionEvent U : Type) := {
  addDevice : DeviceConnectionEvent -> U -> U * Outcome;
  removeDevice : DeviceDisconnectionEvent -> U -> U * Outcome;
  pairReady : DeviceDiscoveryEvent -> Passkey -> U -> U * Outcome
}.

Inductive LogLevel := DEBUG | INFO | WARN | ERROR.
Inductive Arg := ArgInt (z : Z) | ArgStr (s : string).

(** Closures registered on the raw device: the handler of [ready] and the
    one of [waitForDevice], which captures [index] and the shared
    [handler_id] cell. *)
Inductive RawHandler :=
| ConnectHandler
| WaitHandler (index : Z) (handler_id : nat).

(** Closures registered on the receiver. *)
Inductive HidppHandler := DiscoverHandler | PasskeyHandler | PairStatusHandler.

Section Monitor.

Context {K : Constants}.
Context {DeviceDiscoveryEvent Passkey DeviceDisconnectionEvent U : Type}.
Context {R : ReceiverClient DeviceDiscoveryEvent Passkey DeviceDisconnectionEvent}.
Context {H : Hooks DeviceDiscoveryEvent Passkey DeviceDisconnectionEvent U}.

(** Commands sent to the receiver. *)
Inductive Command :=
| setNotifications (a b c : bool)
| Receiver_enumerate
| startDiscover (timeout : Z)
| startPairing (timeout : Z)
| stopDiscover
| stopPairing
| startBoltPairing (event : DeviceDiscoveryEvent).

(** Everything the monitor does to the outside, in order. *)
Inductive Obs :=
| CallAddDevice (event : DeviceConnectionEvent)
| CallRemoveDevice (event : DeviceDisconnectionEvent)
| CallPairReady (event : DeviceDiscoveryEvent) (passkey : Passkey)
| Cmd (c : Command)
| LogPrintf (level : LogLevel) (fmt : string) (args : list Arg).

(** Closures handed to [run_task]. *)
Inductive Task :=
| LifecycleTask (report : Report) (path : string)
| BoltPairingTask (event : DeviceDiscoveryEvent)
| WaitTask (event : DeviceConnectionEvent) (handler_id : nat).

(** The fields of the class. An [EventHandlerLock] is empty ([None]) or
    holds the identifier of a registered handler. *)
Record ReceiverMonitor := {
  _pair_state : PairState;
  _discovery_event : DeviceDiscoveryEvent;
  _connect_ev_handler : option nat;
  _discover_ev_handler : option nat;
  _passkey_ev_handler : option nat;
  _pair_status_handler : option nat
}.

(** The monitor and what surrounds it: the handler lists of the raw
    device and of the receiver, the heap cells allocated by
    [std::make_shared<EventHandlerLock>], the pending tasks, the
    observations so far, and the state of the subclass. *)
Record World := {
  this : ReceiverMonitor;
  raw_handlers : list (nat * RawHandler);
  hidpp_handlers : list (nat * HidppHandler);
  next_id : nat;
  locks : list (option nat);
  tasks : list Task;
  observed : list Obs;
  user : U
}.

Definition with_this (m : ReceiverMonitor) (w : World) : World :=
  {| this := m; raw_handlers := raw_handlers w;
     hidpp_handlers := hidpp_handlers w; next_id := next_id w;
     locks := locks w; tasks := tasks w; observed := observed w;
     user := user w |}.

Definition with_raw_handlers (l : list (nat * RawHandler)) (w : World) : World :=
  {| this := this w; raw_handlers := l;
     hidpp_handlers := hidpp_handlers w; next_id := next_id w;
     locks := locks w; tasks := tasks w; observed := observed w;
     user := user w |}.

Definition with_hidpp_handlers (l : list (nat * HidppHandler)) (w : World) : World :=
  {| this := this w; raw_handlers := raw_handlers w;
     hidpp_handlers := l; next_id := next_id w;
     locks := locks w; tasks := tasks w; observed := observed w;
     user := user w |}.

Definition with_next_id (n : nat) (w : World) : World :=
  {| this := this w; raw_handlers := raw_handlers w;
     hidpp_handlers := hidpp_handlers w; next_id := n;
     locks := locks w; tasks := tasks w; observed := observed w;
     user := user w |}.

Definition with_locks (l : list (option nat)) (w : World) : World :=
  {| this := this w; raw_handlers := raw_handlers w;
     hidpp_handlers := hidpp_handlers w; next_id := next_id w;
     locks := l; tasks := tasks w; observed := observed w;
     user := user w |}.

Definition with_tasks (l : list Task) (w : World) : World :=
  {| this := this w; raw_handlers := raw_handlers w;
     hidpp_handlers := hidpp_handlers w; next_id := next_id w;
     locks := locks w; tasks := l; observed := observed w;
     user := user w |}.

Definition with_observed (l : list Obs) (w : World) : World :=
  {| this := this w; raw_handlers := raw_handlers w;
     hidpp_handlers := hidpp_handlers w; next_id := next_id w;
     locks := locks w; tasks := tasks w; observed := l;
     user := user w |}.

Definition with_user (u : U) (w : World) : World :=
  {| this := this w; raw_handlers := raw_handlers w;
     hidpp_handlers := hidpp_handlers w; next_id := next_id w;
     locks := locks w; tasks := tasks w; observed := observed w;
     user := u |}.

Definition set_pair_state (p : PairState) (m : ReceiverMonitor) : ReceiverMonitor :=
  {| _pair_state := p; _discovery_event := _discovery_event m;
     _connect_ev_handler := _connect_ev_handler m;
     _discover_ev_handler := _discover_ev_handler m;
     _passkey_ev_handler := _passkey_ev_handler m;
     _pair_status_handler := _pair_status_handler m |}.

Definition set_discovery_event (e : DeviceDiscoveryEvent) (m : ReceiverMonitor)
  : ReceiverMonitor :=
  {| _pair_state := _pair_state m; _discovery_event := e;
     _connect_ev_handler := _connect_ev_handler m;
     _discover_ev_handler := _discover_ev_handler m;
     _passkey_ev_handler := _passkey_ev_handler m;
     _pair_status_handler := _pair_status_handler m |}.

Definition set_connect_ev_handler (h : option nat) (m : ReceiverMonitor) :=
  {| _pair_state := _pair_state m; _discovery_event := _discovery_event m;
     _connect_ev_handler := h;
     _discover_ev_handler := _discover_ev_handler m;
     _passkey_ev_handler := _passkey_ev_handler m;
     _pair_status_handler := _pair_status_handler m |}.

Definition set_discover_ev_handler (h : option nat) (m : ReceiverMonitor) :=
  {| _pair_state := _pair_state m; _discovery_event := _discovery_event m;
     _connect_ev_handler := _connect_ev_handler m;
     _discover_ev_handler := h;
     _passkey_ev_handler := _passkey_ev_handler m;
     _pair_status_handler := _pair_status_handler m |}.

Definition set_passkey_ev_handler (h : option nat) (m : ReceiverMonitor) :=
  {| _pair_state := _pair_state m; _discovery_event := _discovery_event m;
     _connect_ev_handler := _connect_ev_handler m;
     _discover_ev_handler := _discover_ev_handler m;
     _passkey_ev_handler := h;
     _pair_status_handler := _pair_status_handler m |}.

Definition set_pair_status_handler (h : option nat) (m : ReceiverMonitor) :=
  {| _pair_state := _pair_state m; _discovery_event := _discovery_event m;
     _connect_ev_handler := _connect_ev_handler m;
     _discover_ev_handler := _discover_ev_handler m;
     _passkey_ev_handler := _passkey_ev_handler m;
     _pair_status_handler := h |}.

(** ** Services the monitor consumes *)

Definition observe (o : Obs) (w : World) : World :=
  with_observed (observed w ++ [o]) w.

Definition command (c : Command) (w : World) : World := observe (Cmd c) w.

Definition logPrintf (level : LogLevel) (fmt : string) (args : list Arg)
  (w : World) : World :=
  observe (LogPrintf level fmt args) w.

(** Modelled from the spec: [run_task] of util/task.h (not among the
    sources): the closure is submitted to the task facility and runs
    later, independently of the submitter. *)
Definition run_task (t : Task) (w : World) : World :=
  with_tasks (tasks w ++ [t]) w.

(** Modelled from the spec: [addEventHandler] of the raw device and of the
    receiver (their sources are absent): it registers the
    (predicate, callback) pair and returns a non-empty handle. *)
Definition raw_addEventHandler (h : RawHandler) (w : World) : nat * World :=
  (next_id w,
   with_next_id (S (next_id w))
     (with_raw_handlers (raw_handlers w ++ [(next_id w, h)]) w)).

Definition hidpp_addEventHandler (h : HidppHandler) (w : World) : nat * World :=
  (next_id w,
   with_next_id (S (next_id w))
     (with_hidpp_handlers (hidpp_handlers w ++ [(next_id w, h)]) w)).

(** Modelled from the spec: releasing a handle of the raw device removes
    the handler it names from the list; releasing again changes nothing. *)
Definition raw_removeEventHandler (id : nat) (w : World) : World :=
  with_raw_handlers
    (filter (fun e => negb (Nat.eqb (fst e) id)) (raw_handlers w)) w.

(** [std::make_shared<EventHandlerLock<raw::RawDevice>>()]: a new, empty
    cell; its address is returned. *)
Definition make_shared_lock (w : World) : nat * World :=
  (List.length (locks w), with_locks (locks w ++ [None]) w).

Fixpoint set_nth {A} (n : nat) (x : A) (l : list A) : list A :=
  match l, n with
  | [], _ => []
  | _ :: l', O => x :: l'
  | y :: l', S n' => y :: set_nth n' x l'
  end.

(** [*cell = lock]: move-assignment releases what the cell held before. *)
Definition assign_lock (cell : nat) (lock : option nat) (w : World) : World :=
  let w1 := match nth_error (locks w) cell with
            | Some (Some id) => raw_removeEventHandler id w
            | _ => w
            end in
  with_locks (set_nth cell lock (locks w1)) w1.

(** A call of a hook of the subclass: recorded, then run on [user]. *)
Definition call_addDevice (event : DeviceConnectionEvent) (w : World)
  : World * Outcome :=
  let (u, o) := addDevice event (user w) in
  (with_user u (observe (CallAddDevice event) w), o).

Definition call_removeDevice (event : DeviceDisconnectionEvent) (w : World)
  : World * Outcome :=
  let (u, o) := removeDevice event (user w) in
  (with_user u (observe (CallRemoveDevice event) w), o).

Definition call_pairReady (event : DeviceDiscoveryEvent) (passkey : Passkey)
  (w : World) : World * Outcome :=
  let (u, o) := pairReady event passkey (user w) in
  (with_user u (observe (CallPairReady event passkey) w), o).

(** [try { body } catch (std::exception& e) { handler(e.what()) }] *)
Definition try_catch (body : World -> World * Outcome)
  (handler : string -> World -> World) (w : World) : World * Outcome :=
  match body w with
  | (w1, Returned) => (w1, Returned)
  | (w1, Threw what) => (handler what w1, Returned)
  end.

(** ** The constructor

    Modelled from the spec: the initial values of the fields are given in
    the class declaration, which is absent; §4.2 names [NotPairing] the
    initial state, and a handle starts empty. *)
Definition ReceiverMonitor_new (u : U) : World :=
  command (setNotifications true true true)
    {| this := {| _pair_state := NotPairing;
                  _discovery_event := empty_discovery_event;
                  _connect_ev_handler := None;
                  _discover_ev_handler := None;
                  _passkey_ev_handler := None;
                  _pair_status_handler := None |};
       raw_handlers := []; hidpp_handlers := []; next_id := O;
       locks := []; tasks := []; observed := []; user := u |}.

(** ** [ready]: the four handlers *)

(** Lines 37-44: the predicate of the connection handler. *)
Definition connect_predicate (report : RawReport) : option bool :=
  match at_ report Offset_Type with
  | None => None
  | Some t =>
      if (t =? Type_Short) || (t =? Type_Long) then
        match at_ report Offset_SubID with
        | None => None
        | Some sub_id =>
            Some ((sub_id =? DeviceConnection) || (sub_id =? DeviceDisconnection))
        end
      else Some false
  end.

(** Lines 51-69: the closure passed to [run_task]. *)
Definition lifecycle_task (report : Report) (path : string) (w : World)
  : World * Outcome :=
  if subId report =? DeviceConnection then
    try_catch (call_addDevice (deviceConnectionEvent report))
      (fun what =>
         logPrintf ERROR "Failed to add device %d to receiver on %s: %s"
           [ArgInt (deviceIndex report); ArgStr path; ArgStr what]) w
  else if subId report =? DeviceDisconnection then
    try_catch (call_removeDevice (deviceDisconnectionEvent report))
      (fun what =>
         logPrintf ERROR "Failed to remove device %d from receiver on %s: %s"
           [ArgInt (deviceIndex report); ArgStr path; ArgStr what]) w
  else (w, Returned).

(** Lines 45-70: the callback of the connection handler. *)
Definition connect_callback (raw : RawReport) (w : World) : World :=
  let report := Report_of_raw raw in
  run_task (LifecycleTask report rawPath) w.

(** Lines 76-79. *)
Definition discover_predicate (report : Report) : bool :=
  (subId report =? DeviceDiscovered) && (type report =? Type_Long).

(** Lines 80-92. *)
Definition discover_callback (report : Report) (w : World) : World * Outcome :=
  if PairState_eqb (_pair_state (this w)) Discovering then
    let (event, filled) :=
      fillDeviceDiscoveryEvent (_discovery_event (this w)) report in
    let w1 := with_this (set_discovery_event event (this w)) w in
    if filled then
      let w2 := with_this (set_pair_state FindingPasskey (this w1)) w1 in
      (run_task (BoltPairingTask (_discovery_event (this w2))) w2, Returned)
    else (w1, Returned)
  else (w, Returned).

(** Lines 87-89: the closure passed to [run_task]. *)
Definition bolt_pairing_task (event : DeviceDiscoveryEvent) (w : World)
  : World * Outcome :=
  (command (startBoltPairing event) w, Returned).

(** Lines 98-101. *)
Definition passkey_predicate (report : Report) : bool :=
  (subId report =? PasskeyRequest) && (type report =? Type_Long).

(** Lines 102-110. *)
Definition passkey_callback (report : Report) (w : World) : World * Outcome :=
  if PairState_eqb (_pair_state (this w)) FindingPasskey then
    let passkey := passkeyEvent report in
    let w1 := with_this (set_pair_state Pairing (this w)) w in
    call_pairReady (_discovery_event (this w1)) passkey w1
  else (w, Returned).

(** Lines 116-120. *)
Definition pair_status_predicate (report : Report) : bool :=
  (subId report =? DiscoveryStatus) || (subId report =? PairStatus)
  || (subId report =? BoltPairStatus).

(** Lines 121-142. *)
Definition pair_status_callback (report : Report) (w : World) : World * Outcome :=
  let st := _pair_state (this w) in
  if subId report =? DiscoveryStatus then
    let event := discoveryStatusEvent report in
    if PairState_eqb st Discovering && negb (discovering event) then
      (with_this (set_pair_state NotPairing (this w)) w, Returned)
    else (w, Returned)
  else if subId report =? PairStatus then
    let event := pairStatusEvent report in
    if (PairState_eqb st FindingPasskey || PairState_eqb st Pairing)
       && negb (pairing event) then
      (with_this (set_pair_state NotPairing (this w)) w, Returned)
    else (w, Returned)
  else if subId report =? BoltPairStatus then
    let event := boltPairStatusEvent report in
    if (PairState_eqb st FindingPasskey || PairState_eqb st Pairing)
       && negb (pairing event) then
      (with_this (set_pair_state NotPairing (this w)) w, Returned)
    else (w, Returned)
  else (w, Returned).

Definition enumerate (w : World) : World := command Receiver_enumerate w.

Definition ready (w : World) : World :=
  let w1 :=
    match _connect_ev_handler (this w) with
    | None =>
        let (id, w') := raw_addEventHandler ConnectHandler w in
        with_this (set_connect_ev_handler (Some id) (this w')) w'
    | Some _ => w
    end in
  let w2 :=
    match _discover_ev_handler (this w1) with
    | None =>
        let (id, w') := hidpp_addEventHandler DiscoverHandler w1 in
        with_this (set_discover_ev_handler (Some id) (this w')) w'
    | Some _ => w1
    end in
  let w3 :=
    match _passkey_ev_handler (this w2) with
    | None =>
        let (id, w') := hidpp_addEventHandler PasskeyHandler w2 in
        with_this (set_passkey_ev_handler (Some id) (this w')) w'
    | Some _ => w2
    end in
  let w4 :=
    match _pair_status_handler (this w3) with
    | None =>
        let (id, w') := hidpp_addEventHandler PairStatusHandler w3 in
        with_this (set_pair_status_handler (Some id) (this w')) w'
    | Some _ => w3
    end in
  enumerate w4.

(** ** [waitForDevice] *)

(** Lines 157-159. *)
Definition wait_predicate (index : Z) (report : RawReport) : option bool :=
  match at_ report Offset_DeviceIndex with
  | None => None
  | Some b => Some (b =? index)
  end.

(** Lines 167-176: the closure passed to [run_task]. *)
Definition wait_task (event : DeviceConnectionEvent) (handler_id : nat)
  (w : World) : World * Outcome :=
  let w1 := assign_lock handler_id None w in
  try_catch (call_addDevice event)
    (fun what =>
       logPrintf ERROR "Failed to add device %d to receiver on %s: %s"
         [ArgInt (index event); ArgStr rawPath; ArgStr what]) w1.

(** Lines 160-177. *)
Definition wait_callback (index : Z) (handler_id : nat) (report : RawReport)
  (w : World) : World :=
  let event := {| index := index; linkEstablished := true;
                  withPayload := false; fromTimeoutCheck := true |} in
  run_task (WaitTask event handler_id) w.

Definition waitForDevice (index : Z) (w : World) : World :=
  let (handler_id, w1) := make_shared_lock w in
  let (lock, w2) := raw_addEventHandler (WaitHandler index handler_id) w1 in
  assign_lock handler_id (Some lock) w2.

(** The same call in the two steps another thread can tell apart: lines
    154-156 first allocate the cell and register the handler, which the
    raw device may invoke from then on, and only afterwards store the
    lock returned by [addEventHandler] in the cell. *)
Definition waitForDevice_register (index : Z) (w : World) : nat * nat * World :=
  let (handler_id, w1) := make_shared_lock w in
  let (lock, w2) := raw_addEventHandler (WaitHandler index handler_id) w1 in
  (handler_id, lock, w2).

Definition waitForDevice_store (handler_id lock : nat) (w : World) : World :=
  assign_lock handler_id (Some lock) w.

(** ** Pairing control *)

Definition _startPair (timeout : Z) (w : World) : World :=
  let m1 := set_pair_state (if bolt then Discovering else Pairing) (this w) in
  let m2 := set_discovery_event empty_discovery_event m1 in
  let w1 := with_this m2 w in
  if bolt then command (startDiscover timeout) w1
  else command (startPairing timeout) w1.

Definition _stopPair (w : World) : World :=
  let last_state := _pair_state (this w) in
  let w1 := with_this (set_pair_state NotPairing (this w)) w in
  if PairState_eqb last_state Discovering then command stopDiscover w1
  else if PairState_eqb last_state Pairing
          || PairState_eqb last_state FindingPasskey
       then command stopPairing w1
  else w1.

(** ** Delivery of reports and execution of tasks *)

Definition raw_predicate (h : RawHandler) (report : RawReport) : option bool :=
  match h with
  | ConnectHandler => connect_predicate report
  | WaitHandler index _ => wait_predicate index report
  end.

Definition raw_callback (h : RawHandler) (report : RawReport) (w : World) : World :=
  match h with
  | ConnectHandler => connect_callback report w
  | WaitHandler index handler_id => wait_callback index handler_id report w
  end.

(** Modelled from the spec: the event subscription facility (§4.1), whose
    source is absent: on each item the registered predicates are
    evaluated and the callbacks of all matches run synchronously. *)
Fixpoint run_raw_handlers (hs : list (nat * RawHandler)) (report : RawReport)
  (w : World) : option World :=
  match hs with
  | [] => Some w
  | (_, h) :: hs' =>
      match raw_predicate h report with
      | None => None
      | Some true => run_raw_handlers hs' report (raw_callback h report w)
      | Some false => run_raw_handlers hs' report w
      end
  end.

Definition deliver_raw (report : RawReport) (w : World) : option World :=
  run_raw_handlers (raw_handlers w) report w.

Definition hidpp_predicate (h : HidppHandler) (report : Report) : bool :=
  match h with
  | DiscoverHandler => discover_predicate report
  | PasskeyHandler => passkey_predicate report
  | PairStatusHandler => pair_status_predicate report
  end.

Definition hidpp_callback (h : HidppHandler) (report : Report) (w : World)
  : World * Outcome :=
  match h with
  | DiscoverHandler => discover_callback report w
  | PasskeyHandler => passkey_callback report w
  | PairStatusHandler => pair_status_callback report w
  end.

(** A callback that throws ends the delivery. *)
Fixpoint run_hidpp_handlers (hs : list (nat * HidppHandler)) (report : Report)
  (w : World) : World * Outcome :=
  match hs with
  | [] => (w, Returned)
  | (_, h) :: hs' =>
      if hidpp_predicate h report then
        match hidpp_callback h report w with
        | (w1, Returned) => run_hidpp_handlers hs' report w1
        | (w1, Threw what) => (w1, Threw what)
        end
      else run_hidpp_handlers hs' report w
  end.

Definition deliver_hidpp (report : Report) (w : World) : World * Outcome :=
  run_hidpp_handlers (hidpp_handlers w) report w.

Definition exec_task (t : Task) (w : World) : World * Outcome :=
  match t with
  | LifecycleTask report path => lifecycle_task report path w
  | BoltPairingTask event => bolt_pairing_task event w
  | WaitTask event handler_id => wait_task event handler_id w
  end.

Fixpoint remove_nth {A} (n : nat) (l : list A) : list A :=
  match l, n with
  | [], _ => []
  | _ :: l', O => l'
  | x :: l', S n' => x :: remove_nth n' l'
  end.

(** The task facility runs the [i]-th pending task (any order is
    possible); nothing happens when there is no such task. *)
Definition run_pending (i : nat) (w : World) : World * Outcome :=
  match nth_error (tasks w) i with
  | None => (w, Returned)
  | Some t => exec_task t (with_tasks (remove_nth i (tasks w)) w)
  end.

(** ** Reading the observations *)

(** What was observed between [w] and a later world [w']. *)
Definition since (w w' : World) : list Obs :=
  skipn (List.length (observed w)) (observed w').

Definition is_hook_call (o : Obs) : bool :=
  match o with
  | CallAddDevice _ | CallRemoveDevice _ | CallPairReady _ _ => true
  | _ => false
  end.

Definition is_log (o : Obs) : bool :=
  match o with LogPrintf _ _ _ => true | _ => false end.

Definition hook_calls (l : list Obs) : list Obs := filter is_hook_call l.
Definition log_lines (l : list Obs) : list Obs := filter is_log l.

(** Used to state what [ready] adds. *)
Definition if_empty {A} (handle : option nat) (x : A) : list A :=
  match handle with None => [x] | Some _ => [] end.

(** ** The pairing state machine *)

(** The operations that touch [_pair_state]: the two pairing controls and
    an invocation of one of the three handlers of the receiver. *)
Inductive Op :=
| OpStartPair (timeout : Z)
| OpStopPair
| OpDiscovered (report : Report)
| OpPasskey (report : Report)
| OpPairStatus (report : Report).

Definition apply_op (op : Op) (w : World) : World :=
  match op with
  | OpStartPair timeout => _startPair timeout w
  | OpStopPair => _stopPair w
  | OpDiscovered report => fst (discover_callback report w)
  | OpPasskey report => fst (passkey_callback report w)
  | OpPairStatus report => fst (pair_status_callback report w)
  end.

(** The triggers of the table of §4.2. *)
Inductive Trigger :=
| TStartPair
| TStopPair
| TDiscoveryReport
| TPasskeyReport
| TDiscoveryStatus
| TPairStatus.

Definition trigger_of (op : Op) : Trigger :=
  match op with
  | OpStartPair _ => TStartPair
  | OpStopPair => TStopPair
  | OpDiscovered _ => TDiscoveryReport
  | OpPasskey _ => TPasskeyReport
  | OpPairStatus report =>
      if subId report =? DiscoveryStatus then TDiscoveryStatus else TPairStatus
  end.

(** The transition graph as §4.2 of the specification words it: one line
    per row of the table. *)
Definition graph_4_2 (is_bolt : bool) (from : PairState) (t : Trigger)
  (to : PairState) : bool :=
  match from, t, to with
  | NotPairing, TStartPair, Discovering => is_bolt
  | NotPairing, TStartPair, Pairing => negb is_bolt
  | Discovering, TDiscoveryReport, FindingPasskey => true
  | Discovering, TDiscoveryStatus, NotPairing => true
  | FindingPasskey, TPasskeyReport, Pairing => true
  | FindingPasskey, TPairStatus, NotPairing => true
  | Pairing, TPairStatus, NotPairing => true
  | _, TStopPair, NotPairing => true
  | _, _, _ => false
  end.

(** The graph the code walks: the same, with [startPair] leaving every
    state. *)
Definition graph_of_code (is_bolt : bool) (from : PairState) (t : Trigger)
  (to : PairState) : bool :=
  match t, to with
  | TStartPair, Discovering => is_bolt
  | TStartPair, Pairing => negb is_bolt
  | _, _ => graph_4_2 is_bolt from t to
  end.

(** One operation keeps the state or moves it along an edge of [G];
    [follows] asks this of every operation of a sequence. *)
Definition along (G : PairState -> Trigger -> PairState -> bool)
  (op : Op) (w : World) : bool :=
  PairState_eqb (_pair_state (this w)) (_pair_state (this (apply_op op w)))
  || G (_pair_state (this w)) (trigger_of op)
       (_pair_state (this (apply_op op w))).

Fixpoint follows (G : PairState -> Trigger -> PairState -> bool)
  (ops : list Op) (w : World) : bool :=
  match ops with
  | [] => true
  | op :: ops' => along G op w && follows G ops' (apply_op op w)
  end.

(** ** The whole monitor, one action at a time

    Threads only meet at the handler lists, the task pool and
    [_pair_mutex]; a run of the system is a sequence of these actions. *)
Inductive Action :=
| ARaw (report : RawReport)
| AHidpp (report : Report)
| ATask (i : nat)
| AReady
| AWaitForDevice (index : Z)
| AStartPair (timeout : Z)
| AStopPair.

Definition step (a : Action) (w : World) : option World :=
  match a with
  | ARaw report => deliver_raw report w
  | AHidpp report => Some (fst (deliver_hidpp report w))
  | ATask i => Some (fst (run_pending i w))
  | AReady => Some (ready w)
  | AWaitForDevice index => Some (waitForDevice index w)
  | AStartPair timeout => Some (_startPair timeout w)
  | AStopPair => Some (_stopPair w)
  end.

(** The actions that run code reading or writing [_pair_state]. *)
Definition touches_pairing (a : Action) : bool :=
  match a with
  | AHidpp _ | AStartPair _ | AStopPair => true
  | _ => false
  end.

Fixpoint run (acts : list Action) (w : World) : option World :=
  match acts with
  | [] => Some w
  | a :: acts' =>
      match step a w with
      | None => None
      | Some w1 => run acts' w1
      end
  end.

(** ** Counting the tasks of one [waitForDevice] *)

(** The pending tasks queued by the handler that captured [cell]. *)
Definition is_wait_task (cell : nat) (t : Task) : bool :=
  match t with
  | WaitTask _ c => Nat.eqb c cell
  | _ => false
  end.

Definition wait_tasks (cell : nat) (w : World) : nat :=
  List.length (filter (is_wait_task cell) (tasks w)).

(** The task a raw handler queues, and the tasks a list of handlers
    queues for one report. *)
Definition raw_task (h : RawHandler) (report : RawReport) : Task :=
  match h with
  | ConnectHandler => LifecycleTask (Report_of_raw report) rawPath
  | WaitHandler index handler_id =>
      WaitTask {| index := index; linkEstablished := true;
                  withPayload := false; fromTimeoutCheck := true |} handler_id
  end.

Fixpoint enqueued (hs : list (nat * RawHandler)) (report : RawReport)
  : list Task :=
  match hs with
  | [] => []
  | (_, h) :: hs' =>
      match raw_predicate h report with
      | Some true => raw_task h report :: enqueued hs' report
      | _ => enqueued hs' report
      end
  end.

(** ** Further vocabulary for the properties below *)

(** A handler accepts a raw report when its predicate is defined and
    true. *)
Definition accepts (h : RawHandler) (report : RawReport) : bool :=
  match raw_predicate h report with
  | Some true => true
  | _ => false
  end.

(** The sub-identifiers the three handlers of the receiver look at are
    pairwise different. *)
Definition event_ids_distinct : bool :=
  negb (DeviceDiscovered =? PasskeyRequest)
  && negb (DeviceDiscovered =? DiscoveryStatus)
  && negb (DeviceDiscovered =? PairStatus)
  && negb (DeviceDiscovered =? BoltPairStatus)
  && negb (PasskeyRequest =? DiscoveryStatus)
  && negb (PasskeyRequest =? PairStatus)
  && negb (PasskeyRequest =? BoltPairStatus)
  && negb (DiscoveryStatus =? PairStatus)
  && negb (DiscoveryStatus =? BoltPairStatus)
  && negb (PairStatus =? BoltPairStatus).

(** The discovery handler invoked on each report of a list in turn. *)
Fixpoint discover_all (reports : list Report) (w : World) : World :=
  match reports with
  | [] => w
  | r :: reports' => discover_all reports' (fst (discover_callback r w))
  end.

(** [fillDeviceDiscoveryEvent] applied report after report until it says
    the record is filled. *)
Fixpoint fill_until_filled (event : DeviceDiscoveryEvent)
  (reports : list Report) : DeviceDiscoveryEvent * bool :=
  match reports with
  | [] => (event, false)
  | r :: reports' =>
      let (event', filled) := fillDeviceDiscoveryEvent event r in
      if filled then (event', true) else fill_until_filled event' reports'
  end.

(** What only a Bolt receiver should ever cause. *)
Definition bolt_only (o : Obs) : bool :=
  match o with
  | CallPairReady _ _ => true
  | Cmd (startDiscover _) | Cmd stopDiscover | Cmd (startBoltPairing _) => true
  | _ => false
  end.

Definition is_bolt_task (t : Task) : bool :=
  match t with BoltPairingTask _ => true | _ => false end.

Definition legacy_ok (w : World) : bool :=
  match _pair_state (this w) with
  | NotPairing | Pairing => true
  | _ => false
  end
  && forallb (fun o => negb (bolt_only o)) (observed w)
  && forallb (fun t => negb (is_bolt_task t)) (tasks w).

(** How often each handler is registered. *)
Definition is_connect (h : RawHandler) : bool :=
  match h with ConnectHandler => true | _ => false end.

Definition HidppHandler_eqb (a b : HidppHandler) : bool :=
  match a, b with
  | DiscoverHandler, DiscoverHandler | PasskeyHandler, PasskeyHandler
  | PairStatusHandler, PairStatusHandler => true
  | _, _ => false
  end.

Definition count_connect (w : World) : nat :=
  List.length (filter (fun e => is_connect (snd e)) (raw_handlers w)).

Definition count_hidpp (k : HidppHandler) (w : World) : nat :=
  List.length (filter (fun e => HidppHandler_eqb (snd e) k) (hidpp_handlers w)).

Definition handle_count (handle : option nat) : nat :=
  match handle with Some _ => 1%nat | None => 0%nat end.

(** Everything about registration: the handler lists, the cells, the
    next identifier and the four handles. *)
Definition registration (w : World) :=
  (raw_handlers w, hidpp_handlers w, locks w, next_id w,
   (_connect_ev_handler (this w), _discover_ev_handler (this w),
    _passkey_ev_handler (this w), _pair_status_handler (this w))).

(** Identifiers are handed out in increasing order, a cell never names
    the connection handler, and a handler is in its list once exactly
    when its handle is set. *)
Definition registration_ok (w : World) : Prop :=
  (forall id h, In (id, h) (raw_handlers w) -> (id < next_id w)%nat) /\
  (forall cell id, nth_error (locks w) cell = Some (Some id) ->
     (id < next_id w)%nat /\ ~ In (id, ConnectHandler) (raw_handlers w)) /\
  count_connect w = handle_count (_connect_ev_handler (this w)) /\
  count_hidpp DiscoverHandler w = handle_count (_discover_ev_handler (this w)) /\
  count_hidpp PasskeyHandler w = handle_count (_passkey_ev_handler (this w)) /\
  count_hidpp PairStatusHandler w
    = handle_count (_pair_status_handler (this w)).

Definition all_registered (w : World) : bool :=
  match registration w with
  | (_, _, _, _, (Some _, Some _, Some _, Some _)) => true
  | _ => false
  end.

(** The hooks for devices, the hook for pairing, and the actions that
    run a task or deliver a decoded report. *)
Definition is_device_hook (o : Obs) : bool :=
  match o with
  | CallAddDevice _ | CallRemoveDevice _ => true
  | _ => false
  end.

Definition is_pair_hook (o : Obs) : bool :=
  match o with CallPairReady _ _ => true | _ => false end.

Definition is_task_action (a : Action) : bool :=
  match a with ATask _ => true | _ => false end.

Definition is_hidpp_action (a : Action) : bool :=
  match a with AHidpp _ => true | _ => false end.

End Monitor.


(** ** A concrete receiver and subclass

    The HID++ values of the constants, a receiver whose discovery record
    is complete after its second report, and a subclass that keeps the
    list of attached device indices and refuses to add one twice. *)

Definition hidpp_constants : Constants :=
  {| Offset_Type := 0; Offset_DeviceIndex := 1; Offset_SubID := 2;
     Type_Short := 0x10; Type_Long := 0x11;
     DeviceDisconnection := 0x40; DeviceConnection := 0x41;
     PairStatus := 0x4a; PasskeyRequest := 0x4d; DeviceDiscovered := 0x4f;
     DiscoveryStatus := 0x53; BoltPairStatus := 0x54 |}.

Definition demo_receiver (is_bolt : bool)
  : ReceiverClient (list Z) (list Z) Z :=
  {| bolt := is_bolt;
     rawPath := "/dev/hidraw0";
     empty_discovery_event := [];
     deviceConnectionEvent := fun r =>
       {| index := deviceIndex r; linkEstablished := true;
          withPayload := true; fromTimeoutCheck := false |};
     deviceDisconnectionEvent := deviceIndex;
     fillDeviceDiscoveryEvent := fun ev r =>
       (ev ++ [deviceIndex r], (1 <=? List.length ev)%nat);
     passkeyEvent := payload;
     discoveryStatusEvent := fun r =>
       {| discovering := negb (nth 4 (payload r) 0 =? 0) |};
     pairStatusEvent := fun r =>
       {| pairing := negb (nth 4 (payload r) 0 =? 0) |};
     boltPairStatusEvent := fun r =>
       {| pairing := negb (nth 4 (payload r) 0 =? 0) |} |}.

Definition demo_hooks : Hooks (list Z) (list Z) Z (list Z) :=
  {| addDevice := fun ev u =>
       if existsb (Z.eqb (index ev)) u
       then (u, Threw "device already exists")
       else (index ev :: u, Returned);
     removeDevice := fun i u =>
       if existsb (Z.eqb i) u
       then (filter (fun j => negb (j =? i)) u, Returned)
       else (u, Threw "no such device");
     pairReady := fun _ _ u => (u, Returned) |}.

Definition demo_new (is_bolt : bool) : World (U := list Z) :=
  ReceiverMonitor_new (R := demo_receiver is_bolt) [].

(** A device-discovered report, a connection report for device 1, and
    ordinary traffic of device 1. *)
Definition discovered_report : Report :=
  {| type := 0x11; deviceIndex := 0xff; subId := 0x4f; payload := [] |}.

Definition connection_report : RawReport := [0x10; 1; 0x41; 0; 0; 0; 0].

Definition traffic_report : RawReport := [0x11; 1; 0x02; 0x1f; 0; 0; 0].

Definition synthesized_event (idx : Z) : DeviceConnectionEvent :=
  {| index := idx; linkEstablished := true;
     withPayload := false; fromTimeoutCheck := true |}.

(** A passkey report, and a pair-status report saying that pairing has
    ended. *)
Definition passkey_report : Report :=
  {| type := 0x11; deviceIndex := 0xff; subId := 0x4d;
     payload := [0x31; 0x32; 0x33; 0x34; 0x35; 0x36] |}.

Definition pairing_ended_report : Report :=
  {| type := 0x10; deviceIndex := 0xff; subId := 0x4a;
     payload := [0; 0; 0; 0; 0] |}.

(** Two runs, and the worlds they end in. *)
Definition legacy_actions : list Action :=
  [AReady; AStartPair 30; AHidpp discovered_report; AHidpp passkey_report;
   ARaw connection_report; ATask O; AStopPair].

Definition legacy_final : World (U := list Z) :=
  Eval vm_compute in
    match run (K := hidpp_constants) (R := demo_receiver false)
            (H := demo_hooks) legacy_actions (demo_new false) with
    | Some w => w
    | None => demo_new false
    end.

Definition registration_actions_1 : list Action :=
  [AWaitForDevice 1; ARaw traffic_report].

Definition registration_actions_2 : list Action :=
  [ATask O; AReady; ARaw connection_report; ATask O].

Definition registration_world_1 : World (U := list Z) :=
  Eval vm_compute in
    match run (K := hidpp_constants) (R := demo_receiver true)
            (H := demo_hooks) registration_actions_1 (demo_new true) with
    | Some w => w
    | None => demo_new true
    end.

Definition registration_world_2 : World (U := list Z) :=
  Eval vm_compute in
    match run (K := hidpp_constants) (R := demo_receiver true)
            (H := demo_hooks) registration_actions_2
            (ready registration_world_1) with
    | Some w => w
    | None => demo_new true
    end.

Definition demo_run (is_bolt : bool) (acts : list Action)
  (w : World (U := list Z)) : option World :=
  run (K := hidpp_constants) (R := demo_receiver is_bolt) (H := demo_hooks)
    acts w.

Definition demo_apply (is_bolt : bool) (ops : list Op)
  (w : World (U := list Z)) : World :=
  fold_left
    (fun w op =>
       apply_op (K := hidpp_constants) (R := demo_receiver is_bolt)
         (H := demo_hooks) op w)
    ops w.

Definition demo_follows (is_bolt : bool)
  (G : PairState -> Trigger -> PairState -> bool) (ops : list Op)
  (w : World (U := list Z)) : bool :=
  follows (K := hidpp_constants) (R := demo_receiver is_bolt)
    (H := demo_hooks) G ops w.


(** * Properties *)

Section Properties.

Context {K : Constants}.
Context {DeviceDiscoveryEvent Passkey DeviceDisconnectionEvent U : Type}.
Context {R : ReceiverClient DeviceDiscoveryEvent Passkey DeviceDisconnectionEvent}.
Context {H : Hooks DeviceDiscoveryEvent Passkey DeviceDisconnectionEvent U}.

Local Abbreviation World :=
  (World (DeviceDiscoveryEvent := DeviceDiscoveryEvent) (Passkey := Passkey)
     (DeviceDisconnectionEvent := DeviceDisconnectionEvent) (U := U)).
Local Abbreviation Obs :=
  (Obs (DeviceDiscoveryEvent := DeviceDiscoveryEvent) (Passkey := Passkey)
     (DeviceDisconnectionEvent := DeviceDisconnectionEvent)).
Local Abbreviation Task := (Task (DeviceDiscoveryEvent := DeviceDiscoveryEvent)).

Lemma PairState_eqb_eq a b : PairState_eqb a b = true <-> a = b.
Proof. destruct a, b; simpl; split; congruence. Qed.

Lemma since_app (w w' : World) (l : list Obs) :
  observed w' = observed w ++ l -> since w w' = l.
Proof.
  intros E. unfold since. rewrite E.
  rewrite skipn_app, skipn_all, Nat.sub_diag. reflexivity.
Qed.

Lemma since_refl (w w' : World) : observed w' = observed w -> since w w' = [].
Proof. intros E. apply since_app. rewrite app_nil_r. exact E. Qed.

Lemma since_observe (w w' : World) (o : Obs) :
  observed w' = observed w -> since w (observe o w') = [o].
Proof. intros E. apply since_app. simpl. rewrite E. reflexivity. Qed.

(** ** [_stopPair] and [_startPair] *)

(** C6: whatever the state before, [_stopPair] leaves [NotPairing]; it
    issues [stopDiscover] exactly when the state before was [Discovering],
    [stopPairing] exactly when it was [FindingPasskey] or [Pairing], and
    nothing at all when it was [NotPairing]. *)
Theorem stopPair_commands (w : World) :
  let w' := _stopPair w in
  _pair_state (this w') = NotPairing /\
  since w w' =
    match _pair_state (this w) with
    | NotPairing => []
    | Discovering => [Cmd stopDiscover]
    | FindingPasskey | Pairing => [Cmd stopPairing]
    end /\
  (In (Cmd stopDiscover) (since w w') <-> _pair_state (this w) = Discovering) /\
  (In (Cmd stopPairing) (since w w') <->
     _pair_state (this w) = FindingPasskey \/ _pair_state (this w) = Pairing).
Proof.
  intros w'.
  assert (E : since w w' =
                match _pair_state (this w) with
                | NotPairing => []
                | Discovering => [Cmd stopDiscover]
                | FindingPasskey | Pairing => [Cmd stopPairing]
                end).
  { subst w'. unfold _stopPair.
    destruct (_pair_state (this w)); simpl;
      try (apply since_observe; reflexivity); apply since_refl; reflexivity. }
  split.
  - subst w'. unfold _stopPair.
    destruct (_pair_state (this w)); reflexivity.
  - split; [exact E|]. rewrite E.
    destruct (_pair_state (this w)); simpl; intuition congruence.
Qed.

(** C7: from [NotPairing], [_startPair] on a Bolt receiver sets the state
    to [Discovering] and resets the discovery record; on any other
    receiver it sets the state to [Pairing] and issues one [startPairing]
    command and nothing else. *)
Theorem startPair_from_NotPairing (timeout : Z) (w : World) :
  _pair_state (this w) = NotPairing ->
  let w' := _startPair timeout w in
  if bolt then
    _pair_state (this w') = Discovering /\
    _discovery_event (this w') = empty_discovery_event
  else
    _pair_state (this w') = Pairing /\
    since w w' = [Cmd (startPairing timeout)].
Proof.
  intros _ w'. subst w'. unfold _startPair.
  destruct bolt; simpl; split; try reflexivity.
  apply since_observe. reflexivity.
Qed.

(** ** The discovery and passkey handlers *)

(** C4: a device-discovered report handled in state [Discovering] moves
    the state to [FindingPasskey] and hands one task to [run_task], which
    issues [startBoltPairing] with the completed record, exactly when
    [fillDeviceDiscoveryEvent] reports the record filled; otherwise the
    state stays [Discovering], no task is queued and nothing is issued. *)
Theorem discover_callback_filled_iff (report : Report) (w : World) :
  _pair_state (this w) = Discovering ->
  let filled := snd (fillDeviceDiscoveryEvent (_discovery_event (this w)) report) in
  let event := fst (fillDeviceDiscoveryEvent (_discovery_event (this w)) report) in
  let w' := fst (discover_callback report w) in
  snd (discover_callback report w) = Returned /\
  since w w' = [] /\
  _discovery_event (this w') = event /\
  (_pair_state (this w') = FindingPasskey <-> filled = true) /\
  if filled then
    _pair_state (this w') = FindingPasskey /\
    tasks w' = tasks w ++ [BoltPairingTask event] /\
    forall w0, since w0 (fst (exec_task (BoltPairingTask event) w0))
               = [Cmd (startBoltPairing event)]
  else
    _pair_state (this w') = Discovering /\ tasks w' = tasks w.
Proof.
  intros St filled event w'. subst filled event w'.
  unfold discover_callback. rewrite St. simpl.
  destruct (fillDeviceDiscoveryEvent (_discovery_event (this w)) report)
    as [ev [|]]; simpl; rewrite ?St.
  - repeat split; auto; try (apply since_refl; reflexivity).
    intros w0. apply since_observe. reflexivity.
  - repeat split; auto; try (apply since_refl; reflexivity);
      intros X; discriminate X.
Qed.

(** C5: a passkey report handled in state [FindingPasskey] moves the state
    to [Pairing] and calls [pairReady] once, with the discovery record
    held at that moment and the decoded passkey; in every other state the
    handler changes nothing and calls nothing. *)
Theorem passkey_callback_spec (report : Report) (w : World) :
  let w' := fst (passkey_callback report w) in
  if PairState_eqb (_pair_state (this w)) FindingPasskey then
    _pair_state (this w') = Pairing /\
    _discovery_event (this w') = _discovery_event (this w) /\
    tasks w' = tasks w /\
    since w w' =
      [CallPairReady (_discovery_event (this w)) (passkeyEvent report)]
  else
    passkey_callback report w = (w, Returned) /\ since w w' = [].
Proof.
  intros w'. subst w'. unfold passkey_callback.
  destruct (PairState_eqb (_pair_state (this w)) FindingPasskey).
  - unfold call_pairReady. simpl.
    destruct (pairReady (_discovery_event (this w)) (passkeyEvent report) (user w))
      as [u o]; simpl.
    repeat split. apply since_app. reflexivity.
  - split; [reflexivity | apply since_refl; reflexivity].
Qed.

(** ** The connection handler and its task *)

Lemma connect_predicate_accepts (raw : RawReport) :
  connect_predicate raw = Some true ->
  (exists t, at_ raw Offset_Type = Some t /\
             (t = Type_Short \/ t = Type_Long)) /\
  at_ raw Offset_SubID = Some (subId (Report_of_raw raw)) /\
  (subId (Report_of_raw raw) = DeviceConnection \/
   subId (Report_of_raw raw) = DeviceDisconnection).
Proof.
  unfold connect_predicate, at_.
  destruct (nth_error raw Offset_Type) as [t|]; [|discriminate].
  destruct ((t =? Type_Short) || (t =? Type_Long)) eqn:Et; [|discriminate].
  destruct (nth_error raw Offset_SubID) as [s|] eqn:E; [|discriminate].
  intros X. injection X as X. simpl.
  rewrite (nth_error_nth _ _ 0 E). split; [|split; [reflexivity|]].
  - exists t. split; [reflexivity|].
    apply orb_true_iff in Et. destruct Et as [Et | Et];
      apply Z.eqb_eq in Et; auto.
  - apply orb_true_iff in X. destruct X as [X | X];
      apply Z.eqb_eq in X; auto.
Qed.

Lemma try_addDevice_since (event : DeviceConnectionEvent)
  (handler : string -> World -> World) (o : string -> Obs) (w : World) :
  (forall what w1, handler what w1 = observe (o what) w1) ->
  snd (try_catch (call_addDevice event) handler w) = Returned /\
  since w (fst (try_catch (call_addDevice event) handler w)) =
    CallAddDevice event ::
      match snd (addDevice event (user w)) with
      | Returned => []
      | Threw what => [o what]
      end.
Proof.
  intros Hh. unfold try_catch, call_addDevice.
  destruct (addDevice event (user w)) as [u [|what]]; simpl.
  - split; [reflexivity|]. apply since_app. reflexivity.
  - split; [reflexivity|]. apply since_app. rewrite Hh. simpl.
    rewrite <- app_assoc. reflexivity.
Qed.

Lemma try_removeDevice_since (event : DeviceDisconnectionEvent)
  (handler : string -> World -> World) (o : string -> Obs) (w : World) :
  (forall what w1, handler what w1 = observe (o what) w1) ->
  snd (try_catch (call_removeDevice event) handler w) = Returned /\
  since w (fst (try_catch (call_removeDevice event) handler w)) =
    CallRemoveDevice event ::
      match snd (removeDevice event (user w)) with
      | Returned => []
      | Threw what => [o what]
      end.
Proof.
  intros Hh. unfold try_catch, call_removeDevice.
  destruct (removeDevice event (user w)) as [u [|what]]; simpl.
  - split; [reflexivity|]. apply since_app. reflexivity.
  - split; [reflexivity|]. apply since_app. rewrite Hh. simpl.
    rewrite <- app_assoc. reflexivity.
Qed.

(** What [lifecycle_task] lets the outside see, whichever way the hook
    ends. *)
Lemma lifecycle_task_since (report : Report) (path : string) (w : World) :
  snd (lifecycle_task report path w) = Returned /\
  since w (fst (lifecycle_task report path w)) =
    if subId report =? DeviceConnection then
      CallAddDevice (deviceConnectionEvent report) ::
        match snd (addDevice (deviceConnectionEvent report) (user w)) with
        | Returned => []
        | Threw what =>
            [LogPrintf ERROR "Failed to add device %d to receiver on %s: %s"
               [ArgInt (deviceIndex report); ArgStr path; ArgStr what]]
        end
    else if subId report =? DeviceDisconnection then
      CallRemoveDevice (deviceDisconnectionEvent report) ::
        match snd (removeDevice (deviceDisconnectionEvent report) (user w)) with
        | Returned => []
        | Threw what =>
            [LogPrintf ERROR "Failed to remove device %d from receiver on %s: %s"
               [ArgInt (deviceIndex report); ArgStr path; ArgStr what]]
        end
    else [].
Proof.
  unfold lifecycle_task.
  destruct (subId report =? DeviceConnection).
  - apply try_addDevice_since
      with (o := fun what => LogPrintf ERROR _ [_; _; ArgStr what]).
    reflexivity.
  - destruct (subId report =? DeviceDisconnection).
    + apply try_removeDevice_since
        with (o := fun what => LogPrintf ERROR _ [_; _; ArgStr what]).
      reflexivity.
    + split; [reflexivity | apply since_refl; reflexivity].
Qed.

(** C3: a raw report accepted by the predicate of the connection handler
    is a short or long report whose sub-identifier is [DeviceConnection]
    or [DeviceDisconnection]; the callback queues one task for it and
    calls no hook itself; that task calls exactly one hook, once:
    [addDevice] when the sub-identifier is [DeviceConnection],
    [removeDevice] when it is [DeviceDisconnection]. *)
Theorem lifecycle_task_exactly_one_hook (raw : RawReport) (w w0 : World) :
  DeviceConnection <> DeviceDisconnection ->
  connect_predicate raw = Some true ->
  let report := Report_of_raw raw in
  let w1 := connect_callback raw w in
  let w2 := fst (lifecycle_task report rawPath w0) in
  (exists t, at_ raw Offset_Type = Some t /\
             (t = Type_Short \/ t = Type_Long)) /\
  tasks w1 = tasks w ++ [LifecycleTask report rawPath] /\
  since w w1 = [] /\
  at_ raw Offset_SubID = Some (subId report) /\
  ((subId report = DeviceConnection /\
    hook_calls (since w0 w2) = [CallAddDevice (deviceConnectionEvent report)])
   \/
   (subId report = DeviceDisconnection /\
    hook_calls (since w0 w2)
    = [CallRemoveDevice (deviceDisconnectionEvent report)])).
Proof.
  intros Hne Hacc report w1 w2.
  destruct (connect_predicate_accepts raw Hacc) as [Hty [Hsub Hcase]].
  fold report in Hsub, Hcase.
  split; [exact Hty|].
  split; [reflexivity|]. split; [apply since_refl; reflexivity|].
  split; [exact Hsub|].
  subst w2.
  destruct (lifecycle_task_since report rawPath w0) as [_ Hs]. rewrite Hs.
  destruct Hcase as [Hc | Hd].
  - left. split; [exact Hc|]. rewrite Hc, Z.eqb_refl. simpl.
    destruct (snd (addDevice (deviceConnectionEvent report) (user w0)));
      reflexivity.
  - right. split; [exact Hd|]. rewrite Hd.
    destruct (DeviceDisconnection =? DeviceConnection) eqn:E.
    + apply Z.eqb_eq in E. congruence.
    + rewrite Z.eqb_refl. simpl.
      destruct (snd (removeDevice (deviceDisconnectionEvent report) (user w0)));
        reflexivity.
Qed.

(** ** [waitForDevice]: what is registered and what it matches *)

Lemma since_same_start (w w1 w' : World) :
  observed w1 = observed w -> since w1 w' = since w w'.
Proof. intros E. unfold since. rewrite E. reflexivity. Qed.

Lemma observed_assign_lock (cell : nat) (lock : option nat) (w : World) :
  observed (assign_lock cell lock w) = observed w.
Proof.
  unfold assign_lock.
  destruct (nth_error (locks w) cell) as [[id|]|]; reflexivity.
Qed.

Lemma user_assign_lock (cell : nat) (lock : option nat) (w : World) :
  user (assign_lock cell lock w) = user w.
Proof.
  unfold assign_lock.
  destruct (nth_error (locks w) cell) as [[id|]|]; reflexivity.
Qed.

Lemma nth_error_fresh_cell {A} (l : list A) (x : A) :
  nth_error (l ++ [x]) (List.length l) = Some x.
Proof. rewrite nth_error_app2, Nat.sub_diag by lia. reflexivity. Qed.

Lemma set_nth_fresh_cell {A} (l : list A) (x y : A) :
  set_nth (List.length l) y (l ++ [x]) = l ++ [y].
Proof. induction l as [|a l IH]; simpl; [reflexivity | rewrite IH; reflexivity]. Qed.

Lemma waitForDevice_fields (idx : Z) (w : World) :
  raw_handlers (waitForDevice idx w)
    = raw_handlers w ++ [(next_id w, WaitHandler idx (List.length (locks w)))] /\
  locks (waitForDevice idx w) = locks w ++ [Some (next_id w)] /\
  next_id (waitForDevice idx w) = S (next_id w) /\
  tasks (waitForDevice idx w) = tasks w /\
  hidpp_handlers (waitForDevice idx w) = hidpp_handlers w /\
  this (waitForDevice idx w) = this w /\
  observed (waitForDevice idx w) = observed w.
Proof.
  unfold waitForDevice, make_shared_lock, raw_addEventHandler, assign_lock.
  simpl. rewrite nth_error_fresh_cell. simpl.
  rewrite set_nth_fresh_cell. repeat split.
Qed.

(** Called without interference, the two steps are [waitForDevice]. *)
Lemma waitForDevice_in_two_steps (idx : Z) (w : World) :
  waitForDevice idx w
  = waitForDevice_store (fst (fst (waitForDevice_register idx w)))
      (snd (fst (waitForDevice_register idx w)))
      (snd (waitForDevice_register idx w)).
Proof. reflexivity. Qed.

(** What the task of [waitForDevice] lets the outside see. *)
Lemma wait_task_since (event : DeviceConnectionEvent) (cell : nat) (w : World) :
  snd (wait_task event cell w) = Returned /\
  since w (fst (wait_task event cell w)) =
    CallAddDevice event ::
      match snd (addDevice event (user w)) with
      | Returned => []
      | Threw what =>
          [LogPrintf ERROR "Failed to add device %d to receiver on %s: %s"
             [ArgInt (index event); ArgStr rawPath; ArgStr what]]
      end.
Proof.
  unfold wait_task.
  rewrite <- (since_same_start w (assign_lock cell None w))
    by apply observed_assign_lock.
  rewrite <- (user_assign_lock cell None w).
  apply try_addDevice_since
    with (o := fun what => LogPrintf ERROR _ [_; _; ArgStr what]).
  reflexivity.
Qed.

(** The task of [waitForDevice] calls [addDevice] once. *)
Lemma wait_task_calls_addDevice (event : DeviceConnectionEvent) (cell : nat)
  (w : World) :
  hook_calls (since w (fst (exec_task (WaitTask event cell) w)))
  = [CallAddDevice event].
Proof.
  simpl. destruct (wait_task_since event cell w) as [_ Hs]. rewrite Hs.
  simpl. destruct (snd (addDevice event (user w))); reflexivity.
Qed.

(** C9: neither task lets an exception of [addDevice] or [removeDevice]
    out.  The task of the connection handler, queued with the path of the
    receiver's raw device, returns, leaves the monitor, the handlers and
    the pending tasks as they were, and logs one ERROR line with the
    device index, the path and [what()] exactly when the hook it called
    threw; so does the task of [waitForDevice] for its [addDevice]. *)
Theorem lifecycle_task_failure_logged (raw : RawReport) (w0 : World)
  (report : Report) (path : string) (event : DeviceConnectionEvent)
  (cell : nat) (w : World) :
  let w' := fst (lifecycle_task report path w) in
  tasks (connect_callback raw w0)
    = tasks w0 ++ [LifecycleTask (Report_of_raw raw) rawPath] /\
  snd (lifecycle_task report path w) = Returned /\
  this w' = this w /\ raw_handlers w' = raw_handlers w /\
  hidpp_handlers w' = hidpp_handlers w /\ tasks w' = tasks w /\
  log_lines (since w w') =
    (if subId report =? DeviceConnection then
       match snd (addDevice (deviceConnectionEvent report) (user w)) with
       | Returned => []
       | Threw what =>
           [LogPrintf ERROR "Failed to add device %d to receiver on %s: %s"
              [ArgInt (deviceIndex report); ArgStr path; ArgStr what]]
       end
     else if subId report =? DeviceDisconnection then
       match snd (removeDevice (deviceDisconnectionEvent report) (user w)) with
       | Returned => []
       | Threw what =>
           [LogPrintf ERROR "Failed to remove device %d from receiver on %s: %s"
              [ArgInt (deviceIndex report); ArgStr path; ArgStr what]]
       end
     else []) /\
  snd (wait_task event cell w) = Returned /\
  log_lines (since w (fst (wait_task event cell w))) =
    match snd (addDevice event (user w)) with
    | Returned => []
    | Threw what =>
        [LogPrintf ERROR "Failed to add device %d to receiver on %s: %s"
           [ArgInt (index event); ArgStr rawPath; ArgStr what]]
    end.
Proof.
  intros w'. split; [reflexivity|].
  destruct (lifecycle_task_since report path w) as [Hr Hs].
  split; [exact Hr|].
  destruct (wait_task_since event cell w) as [Hwr Hws].
  rewrite Hws. subst w'. rewrite Hs. clear Hr Hs Hws.
  unfold lifecycle_task, try_catch, call_addDevice, call_removeDevice.
  assert (Hlast : forall l : list Obs,
            l = match snd (addDevice event (user w)) with
                | Returned => []
                | Threw what =>
                    [LogPrintf ERROR
                       "Failed to add device %d to receiver on %s: %s"
                       [ArgInt (index event); ArgStr rawPath; ArgStr what]]
                end ->
            log_lines (CallAddDevice event :: l) = l)
    by (intros l ->; destruct (snd (addDevice event (user w))); reflexivity).
  specialize (Hlast _ eq_refl).
  destruct (subId report =? DeviceConnection).
  - destruct (addDevice (deviceConnectionEvent report) (user w)) as [u [|what]];
      simpl; repeat split; auto.
  - destruct (subId report =? DeviceDisconnection).
    + destruct (removeDevice (deviceDisconnectionEvent report) (user w))
        as [u [|what]]; simpl; repeat split; auto.
    + simpl. repeat split; auto.
Qed.

(** C10: [waitForDevice] registers on the raw device a handler whose
    predicate holds exactly for the reports whose byte at
    [Offset::DeviceIndex] is the index, whatever the other bytes are; on
    every match the callback queues one task carrying the event
    [{index, linkEstablished = true, withPayload = false,
    fromTimeoutCheck = true}], and that task calls [addDevice] with it. *)
Theorem waitForDevice_matches_index (idx : Z) (raw : RawReport) (w w0 : World) :
  let cell := List.length (locks w) in
  let event := {| index := idx; linkEstablished := true;
                  withPayload := false; fromTimeoutCheck := true |} in
  raw_handlers (waitForDevice idx w)
    = raw_handlers w ++ [(next_id w, WaitHandler idx cell)] /\
  (raw_predicate (WaitHandler idx cell) raw = Some true <->
   at_ raw Offset_DeviceIndex = Some idx) /\
  tasks (raw_callback (WaitHandler idx cell) raw w0)
    = tasks w0 ++ [WaitTask event cell] /\
  since w0 (raw_callback (WaitHandler idx cell) raw w0) = [] /\
  hook_calls (since w0 (fst (exec_task (WaitTask event cell) w0)))
    = [CallAddDevice event].
Proof.
  intros cell event.
  split; [apply waitForDevice_fields|].
  split.
  { simpl. unfold wait_predicate.
    destruct (at_ raw Offset_DeviceIndex) as [b|]; [|split; discriminate].
    split; intros X; injection X as X.
    - apply Z.eqb_eq in X. congruence.
    - subst b. rewrite Z.eqb_refl. reflexivity. }
  split; [reflexivity|].
  split; [apply since_refl; reflexivity|].
  apply wait_task_calls_addDevice.
Qed.

(** ** [ready] *)

(** C8: [ready] registers each of the four handlers only when its handle
    is empty, and its last act is [enumerate]; a second call registers
    nothing, so after two calls on a new monitor each handler is
    registered once. *)
Theorem ready_registers_once (w : World) (u : U) :
  map snd (raw_handlers (ready w))
    = map snd (raw_handlers w)
      ++ if_empty (_connect_ev_handler (this w)) ConnectHandler /\
  map snd (hidpp_handlers (ready w))
    = map snd (hidpp_handlers w)
      ++ if_empty (_discover_ev_handler (this w)) DiscoverHandler
      ++ if_empty (_passkey_ev_handler (this w)) PasskeyHandler
      ++ if_empty (_pair_status_handler (this w)) PairStatusHandler /\
  observed (ready w) = observed w ++ [Cmd Receiver_enumerate] /\
  raw_handlers (ready (ready w)) = raw_handlers (ready w) /\
  hidpp_handlers (ready (ready w)) = hidpp_handlers (ready w) /\
  this (ready (ready w)) = this (ready w) /\
  map snd (raw_handlers (ready (ready (ReceiverMonitor_new u))))
    = [ConnectHandler] /\
  map snd (hidpp_handlers (ready (ready (ReceiverMonitor_new u))))
    = [DiscoverHandler; PasskeyHandler; PairStatusHandler] /\
  since (ReceiverMonitor_new u) (ready (ready (ReceiverMonitor_new u)))
    = [Cmd Receiver_enumerate; Cmd Receiver_enumerate].
Proof.
  destruct w as [[ps de [c|] [d|] [p|] [s|]] rh hh n lk ts ob us];
    cbn; rewrite ?map_app, ?app_nil_r, <- ?app_assoc; cbn;
    repeat split; reflexivity.
Qed.

(** ** Delivery of raw reports and the frames of the tasks *)

Lemma run_raw_handlers_enqueues (hs : list (nat * RawHandler))
  (report : RawReport) (w w' : World) :
  run_raw_handlers hs report w = Some w' ->
  w' = with_tasks (tasks w ++ enqueued hs report) w.
Proof.
  revert w. induction hs as [|[id h] hs IH]; intros w; simpl.
  - intros X. injection X as X. subst w'. rewrite app_nil_r.
    destruct w; reflexivity.
  - destruct (raw_predicate h report) as [[|]|]; try discriminate.
    + intros X. apply IH in X. rewrite X.
      destruct h; simpl; unfold connect_callback, wait_callback, run_task;
        simpl; rewrite <- app_assoc; reflexivity.
    + apply IH.
Qed.

Lemma length_set_nth {A} (n : nat) (x : A) (l : list A) :
  List.length (set_nth n x l) = List.length l.
Proof.
  revert n. induction l as [|a l IH]; intros [|n]; simpl; auto.
Qed.

Lemma nth_error_set_nth_other {A} (n m : nat) (x : A) (l : list A) :
  n <> m -> nth_error (set_nth n x l) m = nth_error l m.
Proof.
  revert n m. induction l as [|a l IH]; intros [|n] [|m] Hne; simpl; auto.
  - congruence.
Qed.

Lemma In_remove_nth {A} (n : nat) (l : list A) (x : A) :
  In x (remove_nth n l) -> In x l.
Proof.
  revert n. induction l as [|a l IH]; intros [|n]; simpl; auto.
  intros [X | X]; eauto.
Qed.



Lemma ready_frame (w : World) :
  locks (ready w) = locks w /\ tasks (ready w) = tasks w /\
  raw_handlers (ready w)
    = raw_handlers w
      ++ match _connect_ev_handler (this w) with
         | None => [(next_id w, ConnectHandler)]
         | Some _ => []
         end.
Proof.
  destruct w as [[ps de [c|] [d|] [p|] [s|]] rh hh n lk ts ob us];
    cbn; rewrite ?app_nil_r; repeat split; reflexivity.
Qed.

Lemma tasks_assign_lock (cell : nat) (lock : option nat) (w : World) :
  tasks (assign_lock cell lock w) = tasks w.
Proof.
  unfold assign_lock.
  destruct (nth_error (locks w) cell) as [[id|]|]; reflexivity.
Qed.


(** ** The pairing state machine *)

Lemma graph_4_2_in_graph_of_code (b : bool) (from to : PairState) (t : Trigger) :
  graph_4_2 b from t to = true -> graph_of_code b from t to = true.
Proof. destruct b, from, t, to; simpl; congruence. Qed.

Lemma along_graph_of_code (op : Op) (w : World) :
  along (graph_of_code bolt) op w = true.
Proof.
  unfold along. destruct op as [timeout | | report | report | report]; simpl.
  - unfold _startPair. destruct bolt; simpl;
      destruct (_pair_state (this w)); reflexivity.
  - unfold _stopPair.
    destruct (_pair_state (this w)); simpl; destruct bolt; reflexivity.
  - unfold discover_callback.
    destruct (_pair_state (this w)) eqn:St; simpl; rewrite ?St; try reflexivity.
    destruct (fillDeviceDiscoveryEvent (_discovery_event (this w)) report)
      as [ev [|]]; simpl; rewrite ?St; destruct bolt; reflexivity.
  - unfold passkey_callback, call_pairReady.
    destruct (_pair_state (this w)) eqn:St; simpl; rewrite ?St; try reflexivity.
    destruct (pairReady (_discovery_event (this w)) (passkeyEvent report) (user w));
      simpl; destruct bolt; reflexivity.
  - unfold pair_status_callback.
    destruct (subId report =? DiscoveryStatus).
    + destruct (_pair_state (this w)) eqn:St; simpl; rewrite ?St; try reflexivity.
      destruct (discovering (discoveryStatusEvent report)); simpl; rewrite ?St;
        destruct bolt; reflexivity.
    + destruct (subId report =? PairStatus).
      * destruct (_pair_state (this w)) eqn:St; simpl; rewrite ?St;
          try reflexivity;
          destruct (pairing (pairStatusEvent report)); simpl; rewrite ?St;
          destruct bolt; reflexivity.
      * destruct (subId report =? BoltPairStatus).
        -- destruct (_pair_state (this w)) eqn:St; simpl; rewrite ?St;
             try reflexivity;
             destruct (pairing (boltPairStatusEvent report)); simpl; rewrite ?St;
             destruct bolt; reflexivity.
        -- simpl. destruct (_pair_state (this w)); reflexivity.
Qed.

Lemma this_assign_lock (cell : nat) (lock : option nat) (w : World) :
  this (assign_lock cell lock w) = this w.
Proof.
  unfold assign_lock.
  destruct (nth_error (locks w) cell) as [[id|]|]; reflexivity.
Qed.

Lemma exec_task_keeps_pair_state (t : Task) (w : World) :
  _pair_state (this (fst (exec_task t w))) = _pair_state (this w).
Proof.
  destruct t as [report path | event | event cell]; simpl.
  - unfold lifecycle_task, try_catch, call_addDevice, call_removeDevice.
    destruct (subId report =? DeviceConnection).
    + destruct (addDevice (deviceConnectionEvent report) (user w)) as [u [|what]];
        reflexivity.
    + destruct (subId report =? DeviceDisconnection); [|reflexivity].
      destruct (removeDevice (deviceDisconnectionEvent report) (user w))
        as [u [|what]]; reflexivity.
  - reflexivity.
  - unfold wait_task, try_catch, call_addDevice.
    destruct (addDevice event (user (assign_lock cell None w))) as [u [|what]];
      simpl; unfold assign_lock;
      destruct (nth_error (locks w) cell) as [[id|]|]; reflexivity.
Qed.

(** Raw reports, tasks, [ready] and [waitForDevice] leave the pairing
    state alone. *)
Lemma step_keeps_pair_state (a : Action) (w w' : World) :
  touches_pairing a = false ->
  step a w = Some w' ->
  _pair_state (this w') = _pair_state (this w).
Proof.
  destruct a as [r | r | i | | idx | t | ]; simpl; intros Ht X;
    try discriminate Ht.
  - unfold deliver_raw in X. apply run_raw_handlers_enqueues in X.
    subst w'. reflexivity.
  - injection X as <-. unfold run_pending.
    destruct (nth_error (tasks w) i) as [t|]; [|reflexivity].
    rewrite exec_task_keeps_pair_state. reflexivity.
  - injection X as <-.
    destruct w as [[ps de [c|] [d|] [p|] [s|]] rh hh n lk ts ob us];
      reflexivity.
  - injection X as <-.
    destruct (waitForDevice_fields idx w) as (_ & _ & _ & _ & _ & E & _).
    rewrite E. reflexivity.
Qed.

(** C2, as the code has it: over every sequence of [_startPair],
    [_stopPair] and handler invocations, from every world, each operation
    keeps the pairing state or moves it along the graph of §4.2 extended
    with [startPair] from every state; [_startPair] itself always ends in
    [Discovering] (Bolt) or [Pairing] (otherwise) with the discovery
    record reset, whatever the state before; and the other actions of the monitor (raw reports, tasks,
    [ready], [waitForDevice]) do not change the pairing state. *)
Theorem pair_state_follows_graph_of_code (ops : list Op) (w : World)
  (timeout : Z) :
  follows (graph_of_code bolt) ops w = true /\
  _pair_state (this (_startPair timeout w))
    = (if bolt then Discovering else Pairing) /\
  _discovery_event (this (_startPair timeout w)) = empty_discovery_event /\
  (forall a w', touches_pairing a = false -> step a w = Some w' ->
                _pair_state (this w') = _pair_state (this w)).
Proof.
  split; [|split; [|split]].
  - revert w. induction ops as [|op ops IH]; intros w; simpl.
    + reflexivity.
    + rewrite along_graph_of_code, IH. reflexivity.
  - unfold _startPair. destruct bolt; reflexivity.
  - unfold _startPair. destruct bolt; reflexivity.
  - intros a w'. apply step_keeps_pair_state.
Qed.

(** * Further properties of the monitor *)

(** ** Raw reports only queue tasks *)

Lemma enqueued_filter_map (hs : list (nat * RawHandler)) (report : RawReport) :
  enqueued hs report
  = map (fun e => raw_task (snd e) report)
      (filter (fun e => accepts (snd e) report) hs).
Proof.
  induction hs as [|[id h] hs IH]; simpl; [reflexivity|].
  unfold accepts at 1. simpl.
  destruct (raw_predicate h report) as [[|]|]; simpl; rewrite IH; reflexivity.
Qed.

(** X1: a raw report that is delivered changes nothing but the pool of
    pending tasks: no hook is called, no command issued and no line
    logged by the callbacks themselves, the monitor and every
    registration stay as they were, and the pool grows by exactly one
    task for each registered handler that accepts the report, whatever
    the order in which the raw device runs its handlers. *)
Theorem raw_delivery_only_queues (report : RawReport) (w w' : World) :
  deliver_raw report w = Some w' ->
  observed w' = observed w /\ user w' = user w /\ this w' = this w /\
  registration w' = registration w /\
  exists queued,
    tasks w' = tasks w ++ queued /\
    Permutation queued
      (map (fun e => raw_task (snd e) report)
         (filter (fun e => accepts (snd e) report) (raw_handlers w))).
Proof.
  unfold deliver_raw. intros X. apply run_raw_handlers_enqueues in X.
  subst w'. repeat split.
  exists (enqueued (raw_handlers w) report). split; [reflexivity|].
  rewrite enqueued_filter_map. apply Permutation_refl.
Qed.

(** ** Pairing control composed *)

(** X2: [_startPair] followed by [_stopPair] ends in [NotPairing] having
    issued the start command of the receiver's kind and then the matching
    stop command, and nothing else; a further [_stopPair] changes
    nothing and issues nothing. *)
Theorem startPair_then_stopPair (timeout : Z) (w : World) :
  let w2 := _stopPair (_startPair timeout w) in
  _pair_state (this w2) = NotPairing /\
  since w w2
  = (if bolt then [Cmd (startDiscover timeout); Cmd stopDiscover]
     else [Cmd (startPairing timeout); Cmd stopPairing]) /\
  _stopPair w2 = w2 /\
  _stopPair (_stopPair w) = _stopPair w.
Proof.
  intros w2. subst w2. unfold _startPair. destruct bolt; simpl.
  - repeat split.
    + apply since_app. simpl. rewrite <- app_assoc. reflexivity.
    + unfold _stopPair. destruct (_pair_state (this w)); reflexivity.
  - repeat split.
    + apply since_app. simpl. rewrite <- app_assoc. reflexivity.
    + unfold _stopPair. destruct (_pair_state (this w)); reflexivity.
Qed.

(** ** The handlers of the receiver when nothing is being paired *)

Lemma hidpp_callback_idle (h : HidppHandler) (report : Report) (w : World) :
  _pair_state (this w) = NotPairing ->
  hidpp_callback h report w = (w, Returned).
Proof.
  intros St. destruct h; simpl;
    unfold discover_callback, passkey_callback, pair_status_callback;
    rewrite St; simpl; try reflexivity.
  destruct (subId report =? DiscoveryStatus); [reflexivity|].
  destruct (subId report =? PairStatus); [reflexivity|].
  destruct (subId report =? BoltPairStatus); reflexivity.
Qed.

(** X3: while the state is [NotPairing], a decoded report delivered to
    the receiver's handlers, whichever of them are registered and
    whatever the report is, leaves the world exactly as it was and
    throws nothing. *)
Theorem idle_monitor_ignores_reports (report : Report) (w : World) :
  _pair_state (this w) = NotPairing ->
  deliver_hidpp report w = (w, Returned).
Proof.
  intros St. unfold deliver_hidpp.
  induction (hidpp_handlers w) as [|[id h] hs IH]; simpl; [reflexivity|].
  destruct (hidpp_predicate h report); [|exact IH].
  rewrite (hidpp_callback_idle h report w St). exact IH.
Qed.

(** ** Releasing the lock of [waitForDevice] *)

Lemma nth_error_set_nth_same {A} (n : nat) (x y : A) (l : list A) :
  nth_error (set_nth n x l) n = Some y -> y = x.
Proof.
  revert n. induction l as [|a l IH]; intros [|n]; simpl;
    try discriminate; [congruence | apply IH].
Qed.



(** ** Discovery reports in a row *)

Lemma discover_all_inactive (reports : list Report) (w : World) :
  _pair_state (this w) <> Discovering -> discover_all reports w = w.
Proof.
  intros St. induction reports as [|r reports IH]; simpl; [reflexivity|].
  unfold discover_callback at 1.
  destruct (_pair_state (this w)); simpl; try exact IH.
  congruence.
Qed.

(** What the discovery handler has done after a list of reports. *)
Lemma discover_all_fills (reports : list Report) (w : World) :
  _pair_state (this w) = Discovering ->
  let r := fill_until_filled (_discovery_event (this w)) reports in
  let w' := discover_all reports w in
  _discovery_event (this w') = fst r /\
  _pair_state (this w') = (if snd r then FindingPasskey else Discovering) /\
  tasks w' = tasks w ++ (if snd r then [BoltPairingTask (fst r)] else []) /\
  observed w' = observed w.
Proof.
  revert w. induction reports as [|rep reports IH]; intros w St; simpl.
  - rewrite St, app_nil_r. repeat split.
  - unfold discover_callback at 1 2 3 4. rewrite St. simpl.
    destruct (fillDeviceDiscoveryEvent (_discovery_event (this w)) rep)
      as [ev [|]]; simpl.
    + rewrite discover_all_inactive by (simpl; discriminate).
      simpl. repeat split.
    + match goal with
      | |- context [discover_all reports ?x] =>
          specialize (IH x St); simpl in IH
      end.
      exact IH.
Qed.

Lemma discover_all_app (reports more : list Report) (w : World) :
  discover_all (reports ++ more) w = discover_all more (discover_all reports w).
Proof.
  revert w. induction reports as [|r reports IH]; intros w; simpl;
    [reflexivity | apply IH].
Qed.

(** X6: in state [Discovering], however many device-discovered reports
    are handled, the record is filled report by report until
    [fillDeviceDiscoveryEvent] says it is complete; at that report the
    state becomes [FindingPasskey] and one task carrying the complete
    record is queued, and the reports after it change nothing: at most
    one [startBoltPairing] task results, and nothing is issued by the
    handler itself. *)
Theorem discovery_queues_one_task (reports more : list Report) (w : World) :
  _pair_state (this w) = Discovering ->
  let r := fill_until_filled (_discovery_event (this w)) reports in
  let w' := discover_all reports w in
  _discovery_event (this w') = fst r /\
  _pair_state (this w') = (if snd r then FindingPasskey else Discovering) /\
  tasks w' = tasks w ++ (if snd r then [BoltPairingTask (fst r)] else []) /\
  observed w' = observed w /\
  (if snd r then discover_all (reports ++ more) w = w' else True).
Proof.
  intros St r w'.
  destruct (discover_all_fills reports w St) as (H1 & H2 & H3 & H4).
  fold r in H1, H2, H3. fold w' in H1, H2, H3, H4.
  repeat (split; [assumption|]).
  destruct (snd r) eqn:E; [|exact I].
  rewrite discover_all_app. fold w'.
  apply discover_all_inactive. rewrite H2. discriminate.
Qed.

(** ** The status handler *)

Lemma event_ids_distinct_status :
  event_ids_distinct = true ->
  DiscoveryStatus <> PairStatus /\ DiscoveryStatus <> BoltPairStatus /\
  PairStatus <> BoltPairStatus.
Proof.
  unfold event_ids_distinct. rewrite !andb_true_iff, !negb_true_iff.
  intros (((((((((_ & _) & _) & _) & _) & _) & _) & A) & B) & C).
  apply Z.eqb_neq in A, B, C. auto.
Qed.

(** X7: the status handler has no effect outside [_pair_state]: it
    calls no hook, issues no command, queues no task and leaves the
    discovery record alone; it either keeps the state or sets it to
    [NotPairing].  With pairwise different sub-identifiers,
    [Discovering] is left exactly on a discovery-status report that says
    discovering has ended, and [FindingPasskey] and [Pairing] are left
    exactly on a pair-status report (of either kind, decoded by its own
    decoder) that says pairing has ended. *)
Theorem pair_status_callback_only_cancels (report : Report) (w : World) :
  event_ids_distinct = true ->
  let w' := fst (pair_status_callback report w) in
  let st := _pair_state (this w) in
  snd (pair_status_callback report w) = Returned /\
  observed w' = observed w /\ tasks w' = tasks w /\
  _discovery_event (this w') = _discovery_event (this w) /\
  (_pair_state (this w') = st \/ _pair_state (this w') = NotPairing) /\
  (st = Discovering ->
   (_pair_state (this w') = NotPairing <->
    subId report = DiscoveryStatus /\
    discovering (discoveryStatusEvent report) = false)) /\
  (st = FindingPasskey \/ st = Pairing ->
   (_pair_state (this w') = NotPairing <->
    (subId report = PairStatus /\ pairing (pairStatusEvent report) = false)
    \/ (subId report = BoltPairStatus /\
        pairing (boltPairStatusEvent report) = false))).
Proof.
  intros Hd w' st. subst w' st.
  destruct (event_ids_distinct_status Hd) as (Hdp & Hdb & Hpb).
  unfold pair_status_callback.
  destruct (discovering (discoveryStatusEvent report)) eqn:Fd;
    destruct (pairing (pairStatusEvent report)) eqn:Fp;
    destruct (pairing (boltPairStatusEvent report)) eqn:Fb;
    destruct (Z.eqb_spec (subId report) DiscoveryStatus) as [E1 | E1];
    destruct (Z.eqb_spec (subId report) PairStatus) as [E2 | E2];
    destruct (Z.eqb_spec (subId report) BoltPairStatus) as [E3 | E3];
    try congruence;
    destruct (_pair_state (this w)) eqn:St; simpl; rewrite ?St;
    intuition congruence.
Qed.

(** ** One report, one handler *)




(** ** A receiver that is not Bolt *)

Lemma legacy_ok_intro (w : World) :
  _pair_state (this w) = NotPairing \/ _pair_state (this w) = Pairing ->
  forallb (fun o => negb (bolt_only o)) (observed w) = true ->
  forallb (fun t => negb (is_bolt_task t)) (tasks w) = true ->
  legacy_ok w = true.
Proof.
  intros [St | St] Ho Ht; unfold legacy_ok; rewrite St, Ho, Ht; reflexivity.
Qed.

Lemma legacy_ok_elim (w : World) :
  legacy_ok w = true ->
  (_pair_state (this w) = NotPairing \/ _pair_state (this w) = Pairing) /\
  forallb (fun o => negb (bolt_only o)) (observed w) = true /\
  forallb (fun t => negb (is_bolt_task t)) (tasks w) = true.
Proof.
  unfold legacy_ok. rewrite !andb_true_iff. intros [[St Ho] Ht].
  destruct (_pair_state (this w)); try discriminate; auto.
Qed.

Lemma legacy_ok_ext (w w' : World) :
  this w' = this w -> observed w' = observed w -> tasks w' = tasks w ->
  legacy_ok w' = legacy_ok w.
Proof. intros E1 E2 E3. unfold legacy_ok. rewrite E1, E2, E3. reflexivity. Qed.

Lemma enqueued_not_bolt (hs : list (nat * RawHandler)) (report : RawReport) :
  forallb (fun t => negb (is_bolt_task t)) (enqueued hs report) = true.
Proof.
  induction hs as [|[id h] hs IH]; simpl; [reflexivity|].
  destruct (raw_predicate h report) as [[|]|]; try exact IH.
  destruct h; simpl; exact IH.
Qed.

Lemma hidpp_callback_legacy_ok (h : HidppHandler) (report : Report) (w : World) :
  legacy_ok w = true -> legacy_ok (fst (hidpp_callback h report w)) = true.
Proof.
  intros Hok. destruct (legacy_ok_elim _ Hok) as (St & Ho & Ht).
  destruct h; simpl;
    unfold discover_callback, passkey_callback, pair_status_callback;
    destruct St as [St | St]; rewrite St; simpl; try exact Hok;
    repeat match goal with
           | |- context [if ?b then _ else _] => destruct b
           end;
    simpl; try exact Hok; apply legacy_ok_intro; simpl; auto.
Qed.

Lemma run_hidpp_handlers_legacy_ok (hs : list (nat * HidppHandler))
  (report : Report) (w : World) :
  legacy_ok w = true ->
  legacy_ok (fst (run_hidpp_handlers hs report w)) = true.
Proof.
  revert w. induction hs as [|[id h] hs IH]; intros w Hok; simpl; [exact Hok|].
  destruct (hidpp_predicate h report); [|apply IH; exact Hok].
  pose proof (hidpp_callback_legacy_ok h report w Hok) as Hc.
  destruct (hidpp_callback h report w) as [w1 [|what]]; simpl in *.
  - apply IH. exact Hc.
  - exact Hc.
Qed.

Lemma try_addDevice_legacy_ok (event : DeviceConnectionEvent)
  (level : LogLevel) (fmt : string) (args : string -> list Arg) (w : World) :
  legacy_ok w = true ->
  legacy_ok (fst (try_catch (call_addDevice event)
                    (fun what => logPrintf level fmt (args what)) w)) = true.
Proof.
  intros Hok. destruct (legacy_ok_elim _ Hok) as (St & Ho & Ht).
  unfold try_catch, call_addDevice.
  destruct (addDevice event (user w)) as [u [|what]]; simpl;
    apply legacy_ok_intro; simpl; auto;
    rewrite ?forallb_app, Ho; reflexivity.
Qed.

Lemma try_removeDevice_legacy_ok (event : DeviceDisconnectionEvent)
  (level : LogLevel) (fmt : string) (args : string -> list Arg) (w : World) :
  legacy_ok w = true ->
  legacy_ok (fst (try_catch (call_removeDevice event)
                    (fun what => logPrintf level fmt (args what)) w)) = true.
Proof.
  intros Hok. destruct (legacy_ok_elim _ Hok) as (St & Ho & Ht).
  unfold try_catch, call_removeDevice.
  destruct (removeDevice event (user w)) as [u [|what]]; simpl;
    apply legacy_ok_intro; simpl; auto;
    rewrite ?forallb_app, Ho; reflexivity.
Qed.

Lemma exec_task_legacy_ok (t : Task) (w : World) :
  is_bolt_task t = false ->
  legacy_ok w = true -> legacy_ok (fst (exec_task t w)) = true.
Proof.
  intros Hb Hok. destruct t as [report path | event | event cell];
    simpl in *; try discriminate.
  - unfold lifecycle_task.
    destruct (subId report =? DeviceConnection).
    + apply (try_addDevice_legacy_ok _ ERROR _
               (fun what => [ArgInt (deviceIndex report); ArgStr path;
                             ArgStr what])).
      exact Hok.
    + destruct (subId report =? DeviceDisconnection); [|exact Hok].
      apply (try_removeDevice_legacy_ok _ ERROR _
               (fun what => [ArgInt (deviceIndex report); ArgStr path;
                             ArgStr what])).
      exact Hok.
  - unfold wait_task.
    apply (try_addDevice_legacy_ok _ ERROR _
             (fun what => [ArgInt (index event); ArgStr rawPath; ArgStr what])).
    rewrite (legacy_ok_ext w); auto using this_assign_lock,
      observed_assign_lock, tasks_assign_lock.
Qed.

Lemma forallb_remove_nth {A} (f : A -> bool) (n : nat) (l : list A) :
  forallb f l = true -> forallb f (remove_nth n l) = true.
Proof.
  intros Hf. apply forallb_forall. intros x Hin.
  apply In_remove_nth in Hin.
  rewrite forallb_forall in Hf. auto.
Qed.

Lemma step_legacy_ok (a : Action) (w w' : World) :
  bolt = false ->
  legacy_ok w = true -> step a w = Some w' -> legacy_ok w' = true.
Proof.
  intros Hb Hok.
  destruct (legacy_ok_elim _ Hok) as (St & Ho & Ht).
  destruct a as [r | r | i | | idx | t | ]; simpl; intros X;
    try (injection X as <-).
  - unfold deliver_raw in X. apply run_raw_handlers_enqueues in X. subst w'.
    apply legacy_ok_intro; simpl; auto.
    rewrite forallb_app, Ht, enqueued_not_bolt. reflexivity.
  - apply run_hidpp_handlers_legacy_ok. exact Hok.
  - unfold run_pending. destruct (nth_error (tasks w) i) as [t|] eqn:E;
      [|exact Hok].
    apply exec_task_legacy_ok.
    + apply nth_error_In in E. rewrite forallb_forall in Ht.
      specialize (Ht _ E). apply negb_true_iff in Ht. exact Ht.
    + apply legacy_ok_intro; simpl; auto.
      apply forallb_remove_nth. exact Ht.
  - destruct (ready_frame w) as [_ [Hts _]].
    apply legacy_ok_intro.
    + destruct w as [[ps de [c|] [d|] [p|] [s|]] rh hh n lk ts ob us];
        exact St.
    + destruct w as [[ps de [c|] [d|] [p|] [s|]] rh hh n lk ts ob us];
        simpl in *; rewrite forallb_app, Ho; reflexivity.
    + rewrite Hts. exact Ht.
  - destruct (waitForDevice_fields idx w) as (_ & _ & _ & E3 & _ & E1 & E2).
    rewrite (legacy_ok_ext w); auto.
  - unfold _startPair. rewrite Hb.
    apply legacy_ok_intro; simpl; auto.
    rewrite forallb_app, Ho. reflexivity.
  - unfold _stopPair.
    destruct St as [St | St]; rewrite St; simpl;
      apply legacy_ok_intro; simpl; auto.
    rewrite forallb_app, Ho. reflexivity.
Qed.

(** X9: on a receiver that is not Bolt, whatever is done with a new
    monitor (reports of any kind, tasks run in any order, [ready],
    [waitForDevice], [_startPair], [_stopPair]), the state is only ever
    [NotPairing] or [Pairing], no [startBoltPairing] task is pending, and
    [pairReady], [startDiscover], [stopDiscover] and [startBoltPairing]
    never happen. *)
Theorem legacy_receiver_never_discovers (acts : list Action) (u : U)
  (w : World) :
  bolt = false ->
  run acts (ReceiverMonitor_new u) = Some w ->
  legacy_ok w = true.
Proof.
  intros Hb.
  assert (Hrun : forall acts w0 w1,
             legacy_ok w0 = true -> run acts w0 = Some w1 ->
             legacy_ok w1 = true).
  { clear acts w. induction acts as [|a acts IH]; intros w0 w1 Hok; simpl.
    - intros X. injection X as <-. exact Hok.
    - destruct (step a w0) as [w2|] eqn:E; [|discriminate].
      apply IH. eapply step_legacy_ok; eauto. }
  apply Hrun. reflexivity.
Qed.

(** ** Registration over whole runs *)

Lemma registration_ok_ext (w w' : World) :
  registration w' = registration w ->
  registration_ok w -> registration_ok w'.
Proof.
  unfold registration. intros E Hok. injection E. intros.
  unfold registration_ok, count_connect, count_hidpp in *.
  repeat match goal with
         | Heq : _ w' = _ |- _ => rewrite Heq; clear Heq
         | Heq : _ (this w') = _ |- _ => rewrite Heq; clear Heq
         end.
  exact Hok.
Qed.

Lemma all_registered_ext (w w' : World) :
  registration w' = registration w -> all_registered w' = all_registered w.
Proof. unfold all_registered. intros ->. reflexivity. Qed.

Lemma all_registered_this (w w' : World) :
  this w' = this w -> all_registered w' = all_registered w.
Proof.
  intros E. unfold all_registered, registration. rewrite E. reflexivity.
Qed.

Lemma hidpp_callback_registration (h : HidppHandler) (report : Report)
  (w : World) :
  registration (fst (hidpp_callback h report w)) = registration w.
Proof.
  destruct h; simpl;
    unfold discover_callback, passkey_callback, pair_status_callback,
      call_pairReady;
    repeat match goal with
           | |- context [pairReady ?e ?p ?u] =>
               destruct (pairReady e p u) as [? [|?]]
           | |- context [fillDeviceDiscoveryEvent ?e ?r] =>
               destruct (fillDeviceDiscoveryEvent e r) as [? [|]]
           | |- context [if ?b then _ else _] => destruct b
           end;
    reflexivity.
Qed.

Lemma run_hidpp_handlers_registration (hs : list (nat * HidppHandler))
  (report : Report) (w : World) :
  registration (fst (run_hidpp_handlers hs report w)) = registration w.
Proof.
  revert w. induction hs as [|[id h] hs IH]; intros w; simpl; [reflexivity|].
  destruct (hidpp_predicate h report); [|apply IH].
  pose proof (hidpp_callback_registration h report w) as Hc.
  destruct (hidpp_callback h report w) as [w1 [|what]]; simpl in *.
  - rewrite IH. exact Hc.
  - exact Hc.
Qed.

Lemma try_addDevice_registration (event : DeviceConnectionEvent)
  (level : LogLevel) (fmt : string) (args : string -> list Arg) (w : World) :
  registration (fst (try_catch (call_addDevice event)
                       (fun what => logPrintf level fmt (args what)) w))
  = registration w.
Proof.
  unfold try_catch, call_addDevice.
  destruct (addDevice event (user w)) as [u [|what]]; reflexivity.
Qed.

Lemma lifecycle_task_registration (report : Report) (path : string)
  (w : World) :
  registration (fst (lifecycle_task report path w)) = registration w.
Proof.
  unfold lifecycle_task, try_catch, call_addDevice, call_removeDevice.
  destruct (subId report =? DeviceConnection).
  - destruct (addDevice (deviceConnectionEvent report) (user w)) as [u [|what]];
      reflexivity.
  - destruct (subId report =? DeviceDisconnection); [|reflexivity].
    destruct (removeDevice (deviceDisconnectionEvent report) (user w))
      as [u [|what]]; reflexivity.
Qed.

Lemma filter_filter_keep {A} (p q : A -> bool) (l : list A) :
  (forall x, In x l -> p x = true -> q x = true) ->
  filter p (filter q l) = filter p l.
Proof.
  induction l as [|a l IH]; intros Hpq; simpl; [reflexivity|].
  assert (IH' : filter p (filter q l) = filter p l)
    by (apply IH; intros x Hx; apply Hpq; right; exact Hx).
  destruct (q a) eqn:Eq; simpl.
  - rewrite IH'. reflexivity.
  - destruct (p a) eqn:Ep; [|exact IH'].
    rewrite (Hpq a (or_introl eq_refl) Ep) in Eq. discriminate.
Qed.

Lemma assign_lock_empty_registration_ok (cell : nat) (w : World) :
  registration_ok w -> registration_ok (assign_lock cell None w).
Proof.
  intros (Ha & Hb & Hc & Hd & He & Hf).
  assert (Hlocks : forall c id,
             nth_error (locks (assign_lock cell None w)) c = Some (Some id) ->
             nth_error (locks w) c = Some (Some id)).
  { intros c id Hn. unfold assign_lock in Hn.
    destruct (Nat.eq_dec cell c) as [<- | Hne].
    - destruct (nth_error (locks w) cell) as [[id'|]|]; simpl in Hn;
        apply nth_error_set_nth_same in Hn; discriminate.
    - destruct (nth_error (locks w) cell) as [[id'|]|]; simpl in Hn;
        rewrite nth_error_set_nth_other in Hn by exact Hne; exact Hn. }
  assert (Hsub : forall e, In e (raw_handlers (assign_lock cell None w)) ->
                           In e (raw_handlers w)).
  { intros e He'. unfold assign_lock in He'.
    destruct (nth_error (locks w) cell) as [[id'|]|]; simpl in He';
      try exact He'.
    apply filter_In in He'. tauto. }
  unfold registration_ok.
  rewrite this_assign_lock.
  assert (Hn : next_id (assign_lock cell None w) = next_id w)
    by (unfold assign_lock;
        destruct (nth_error (locks w) cell) as [[id'|]|]; reflexivity).
  assert (Hh : hidpp_handlers (assign_lock cell None w) = hidpp_handlers w)
    by (unfold assign_lock;
        destruct (nth_error (locks w) cell) as [[id'|]|]; reflexivity).
  rewrite Hn. unfold count_hidpp. rewrite Hh.
  split; [|split; [|split; [|auto]]].
  - intros id h Hin. apply Hsub in Hin. eauto.
  - intros c id Hc'. apply Hlocks in Hc'.
    destruct (Hb _ _ Hc') as [Hlt Hnin].
    split; [exact Hlt|]. intros Hin. apply Hsub in Hin. exact (Hnin Hin).
  - rewrite <- Hc. unfold count_connect, assign_lock.
    destruct (nth_error (locks w) cell) as [[id'|]|] eqn:E; simpl;
      try reflexivity.
    rewrite filter_filter_keep; [reflexivity|].
    intros [id h] Hin Hconn. simpl in *.
    destruct h; try discriminate.
    destruct (Nat.eqb id id') eqn:Eid; [|reflexivity].
    apply Nat.eqb_eq in Eid. subst id'.
    destruct (Hb _ _ E) as [_ Hnin]. exfalso. exact (Hnin Hin).
Qed.

Lemma waitForDevice_registration_ok (idx : Z) (w : World) :
  registration_ok w -> registration_ok (waitForDevice idx w).
Proof.
  intros (Ha & Hb & Hc & Hd & He & Hf).
  destruct (waitForDevice_fields idx w) as (Er & El & En & _ & Eh & Et & _).
  unfold registration_ok, count_connect, count_hidpp in *.
  rewrite Er, El, En, Eh, Et.
  split; [|split; [|split; [|auto]]].
  - intros id h Hin. apply in_app_or in Hin.
    destruct Hin as [Hin | [Hin | []]].
    + apply Ha in Hin. lia.
    + injection Hin as <- _. lia.
  - intros c id Hn.
    assert (Hid : (id < S (next_id w))%nat /\
                  (id = next_id w \/ ~ In (id, ConnectHandler) (raw_handlers w))).
    { destruct (Nat.lt_ge_cases c (List.length (locks w))) as [Hlt | Hge].
      - rewrite nth_error_app1 in Hn by exact Hlt.
        destruct (Hb _ _ Hn). split; [lia | auto].
      - rewrite nth_error_app2 in Hn by exact Hge.
        destruct (c - List.length (locks w))%nat as [|k]; simpl in Hn.
        + injection Hn as <-. split; [lia | auto].
        + destruct k; discriminate. }
    destruct Hid as [Hlt Hcase]. split; [exact Hlt|].
    intros Hin. apply in_app_or in Hin.
    destruct Hin as [Hin | [Hin | []]]; [|discriminate].
    destruct Hcase as [-> | Hnin]; [|exact (Hnin Hin)].
    apply Ha in Hin. lia.
  - rewrite filter_app, length_app. simpl. lia.
Qed.

Ltac ready_case Ha Hb :=
  split; [|split; [|split; [|split; [|split]]]];
  [ intros id h Hin;
    repeat (apply in_app_or in Hin;
            destruct Hin as [Hin | [Hin | []]];
            [|injection Hin as <- _; lia]);
    apply Ha in Hin; lia
  | intros cell id Hn; destruct (Hb _ _ Hn) as [Hlt Hnin];
    split; [lia|];
    intros Hin;
    repeat (apply in_app_or in Hin;
            destruct Hin as [Hin | [Hin | []]];
            [|injection Hin as <-; lia]);
    exact (Hnin Hin)
  | rewrite ?filter_app, ?length_app; simpl; lia .. ].

Lemma ready_registration_ok (w : World) :
  registration_ok w ->
  registration_ok (ready w) /\ all_registered (ready w) = true.
Proof.
  intros Hok. split.
  - destruct w as [[ps de [c|] [d|] [p|] [s|]] rh hh n lk ts ob us];
      unfold registration_ok, count_connect, count_hidpp in *;
      cbn in *; destruct Hok as (Ha & Hb & Hc & Hd & He & Hf);
      ready_case Ha Hb.
  - destruct w as [[ps de [c|] [d|] [p|] [s|]] rh hh n lk ts ob us];
      reflexivity.
Qed.

Lemma exec_task_registration (t : Task) (w : World) :
  registration_ok w ->
  registration_ok (fst (exec_task t w)) /\
  all_registered (fst (exec_task t w)) = all_registered w.
Proof.
  intros Hok. destruct t as [report path | event | event cell]; simpl.
  - split.
    + apply (registration_ok_ext w); auto using lifecycle_task_registration.
    + apply all_registered_ext, lifecycle_task_registration.
  - split; [exact Hok | reflexivity].
  - unfold wait_task.
    match goal with
    | |- context [try_catch _ (fun what => logPrintf ?l ?f (@?a what)) ?x] =>
        pose proof (try_addDevice_registration event l f a x) as Hr
    end.
    split.
    + eapply registration_ok_ext; [exact Hr|].
      apply assign_lock_empty_registration_ok. exact Hok.
    + rewrite (all_registered_ext _ _ Hr).
      apply all_registered_this, this_assign_lock.
Qed.

Lemma step_registration (a : Action) (w w' : World) :
  registration_ok w -> step a w = Some w' ->
  registration_ok w' /\ (all_registered w = true -> all_registered w' = true).
Proof.
  intros Hok. destruct a as [r | r | i | | idx | t | ]; simpl; intros X;
    try (injection X as <-).
  - unfold deliver_raw in X. apply run_raw_handlers_enqueues in X. subst w'.
    split; [exact Hok | auto].
  - pose proof (run_hidpp_handlers_registration (hidpp_handlers w) r w) as Hr.
    unfold deliver_hidpp. split.
    + eapply registration_ok_ext; eauto.
    + rewrite (all_registered_ext _ _ Hr). auto.
  - unfold run_pending. destruct (nth_error (tasks w) i) as [t|]; [|auto].
    destruct (exec_task_registration t
                (with_tasks (remove_nth i (tasks w)) w) Hok) as [H1 H2].
    split; [exact H1|]. rewrite H2. auto.
  - destruct (ready_registration_ok w Hok). auto.
  - split; [apply waitForDevice_registration_ok; exact Hok|].
    destruct (waitForDevice_fields idx w) as (_ & _ & _ & _ & _ & Et & _).
    rewrite (all_registered_this _ _ Et). auto.
  - assert (Hr : registration (_startPair t w) = registration w)
      by (unfold _startPair; destruct bolt; reflexivity).
    split; [eapply registration_ok_ext; eauto|].
    rewrite (all_registered_ext _ _ Hr). auto.
  - assert (Hr : registration (_stopPair w) = registration w)
      by (unfold _stopPair; destruct (_pair_state (this w)); reflexivity).
    split; [eapply registration_ok_ext; eauto|].
    rewrite (all_registered_ext _ _ Hr). auto.
Qed.

Lemma run_registration (acts : list Action) (w w' : World) :
  registration_ok w -> run acts w = Some w' ->
  registration_ok w' /\ (all_registered w = true -> all_registered w' = true).
Proof.
  revert w. induction acts as [|a acts IH]; intros w Hok; simpl.
  - intros X. injection X as <-. auto.
  - destruct (step a w) as [w1|] eqn:E; [|discriminate].
    destruct (step_registration a w w1 Hok E) as [H1 H2].
    intros X. destruct (IH w1 H1 X) as [H3 H4]. auto.
Qed.

Lemma new_registration_ok (u : U) : registration_ok (ReceiverMonitor_new u).
Proof.
  unfold registration_ok. simpl. repeat split; try contradiction;
    destruct cell; discriminate.
Qed.

(** X10: whatever is done with a new monitor, in any order, each of the
    four handlers is in its list once when its handle is set and not at
    all when it is empty; and from the first [ready] on, each of them is
    registered exactly once for good: later calls of [ready] add nothing
    and the tasks of [waitForDevice] never remove the connection
    handler. *)
Theorem handlers_registered_once (acts1 acts2 : list Action) (u : U)
  (w1 w2 : World) :
  run acts1 (ReceiverMonitor_new u) = Some w1 ->
  run acts2 (ready w1) = Some w2 ->
  (count_connect w1 = handle_count (_connect_ev_handler (this w1)) /\
   count_hidpp DiscoverHandler w1
   = handle_count (_discover_ev_handler (this w1)) /\
   count_hidpp PasskeyHandler w1
   = handle_count (_passkey_ev_handler (this w1)) /\
   count_hidpp PairStatusHandler w1
   = handle_count (_pair_status_handler (this w1))) /\
  count_connect w2 = 1%nat /\
  count_hidpp DiscoverHandler w2 = 1%nat /\
  count_hidpp PasskeyHandler w2 = 1%nat /\
  count_hidpp PairStatusHandler w2 = 1%nat.
Proof.
  intros R1 R2.
  destruct (run_registration _ _ _ (new_registration_ok u) R1) as [Hok1 _].
  destruct (ready_registration_ok w1 Hok1) as [Hok1' Hall1].
  destruct (run_registration _ _ _ Hok1' R2) as [Hok2 Hall2].
  specialize (Hall2 Hall1).
  split; [apply Hok1|].
  destruct Hok2 as (_ & _ & Hc & Hd & He & Hf).
  unfold all_registered, registration in Hall2.
  destruct (_connect_ev_handler (this w2)); [|discriminate].
  destruct (_discover_ev_handler (this w2)); [|discriminate].
  destruct (_passkey_ev_handler (this w2)); [|discriminate].
  destruct (_pair_status_handler (this w2)); [|discriminate].
  auto.
Qed.

(** ** A whole pairing on a Bolt receiver *)

(** X11: on a Bolt receiver, [_startPair], then device-discovered reports
    that complete the record, then a passkey report: the state is
    [Pairing], the only things done are [startDiscover] and one call of
    [pairReady], one [startBoltPairing] task has been queued, and
    [pairReady] and that task carry the same record, built from the
    reports since [_startPair] alone (whatever the record held before
    is discarded). *)
Theorem bolt_pairing_flow (timeout : Z) (reports : list Report)
  (passkey_report : Report) (w : World) :
  bolt = true ->
  snd (fill_until_filled empty_discovery_event reports) = true ->
  let record := fst (fill_until_filled empty_discovery_event reports) in
  let w1 := discover_all reports (_startPair timeout w) in
  let w2 := fst (passkey_callback passkey_report w1) in
  _pair_state (this w1) = FindingPasskey /\
  _pair_state (this w2) = Pairing /\
  tasks w2 = tasks w ++ [BoltPairingTask record] /\
  since w w2
  = [Cmd (startDiscover timeout);
     CallPairReady record (passkeyEvent passkey_report)].
Proof.
  intros Hb Hfilled record w1 w2.
  assert (St0 : _pair_state (this (_startPair timeout w)) = Discovering)
    by (unfold _startPair; rewrite Hb; reflexivity).
  assert (Ev0 : _discovery_event (this (_startPair timeout w))
                = empty_discovery_event)
    by (unfold _startPair; rewrite Hb; reflexivity).
  assert (Ob0 : observed (_startPair timeout w)
                = observed w ++ [Cmd (startDiscover timeout)])
    by (unfold _startPair; rewrite Hb; reflexivity).
  assert (Ts0 : tasks (_startPair timeout w) = tasks w)
    by (unfold _startPair; rewrite Hb; reflexivity).
  destruct (discover_all_fills reports _ St0) as (H1 & H2 & H3 & H4).
  rewrite Ev0 in H1, H2, H3. rewrite Hfilled in H2, H3.
  fold record in H1, H3. fold w1 in H1, H2, H3, H4.
  rewrite Ts0 in H3. rewrite Ob0 in H4.
  split; [exact H2|].
  subst w2. unfold passkey_callback, call_pairReady. rewrite H2. simpl.
  destruct (pairReady (_discovery_event (this w1))
              (passkeyEvent passkey_report) (user w1)) as [u o]; simpl.
  split; [reflexivity|]. split; [exact H3|].
  apply since_app. simpl. rewrite H4, H1, <- app_assoc. reflexivity.
Qed.

(** ** Which thread calls which hook *)

Lemma hidpp_callback_device_hooks (h : HidppHandler) (report : Report)
  (w : World) :
  filter is_device_hook (observed (fst (hidpp_callback h report w)))
  = filter is_device_hook (observed w).
Proof.
  destruct h; simpl;
    unfold discover_callback, passkey_callback, pair_status_callback,
      call_pairReady;
    repeat match goal with
           | |- context [pairReady ?e ?p ?u] =>
               destruct (pairReady e p u) as [? [|?]]
           | |- context [fillDeviceDiscoveryEvent ?e ?r] =>
               destruct (fillDeviceDiscoveryEvent e r) as [? [|]]
           | |- context [if ?b then _ else _] => destruct b
           end;
    simpl; rewrite ?filter_app, ?app_nil_r; reflexivity.
Qed.

Lemma run_hidpp_handlers_device_hooks (hs : list (nat * HidppHandler))
  (report : Report) (w : World) :
  filter is_device_hook (observed (fst (run_hidpp_handlers hs report w)))
  = filter is_device_hook (observed w).
Proof.
  revert w. induction hs as [|[id h] hs IH]; intros w; simpl; [reflexivity|].
  destruct (hidpp_predicate h report); [|apply IH].
  pose proof (hidpp_callback_device_hooks h report w) as Hc.
  destruct (hidpp_callback h report w) as [w1 [|what]]; simpl in *.
  - rewrite IH. exact Hc.
  - exact Hc.
Qed.

Lemma exec_task_pair_hooks (t : Task) (w : World) :
  filter is_pair_hook (observed (fst (exec_task t w)))
  = filter is_pair_hook (observed w).
Proof.
  destruct t as [report path | event | event cell]; simpl.
  - unfold lifecycle_task, try_catch, call_addDevice, call_removeDevice.
    destruct (subId report =? DeviceConnection).
    + destruct (addDevice (deviceConnectionEvent report) (user w)) as [u [|what]];
        simpl; rewrite ?filter_app, ?app_nil_r; reflexivity.
    + destruct (subId report =? DeviceDisconnection); [|reflexivity].
      destruct (removeDevice (deviceDisconnectionEvent report) (user w))
        as [u [|what]]; simpl; rewrite ?filter_app, ?app_nil_r; reflexivity.
  - rewrite filter_app, app_nil_r. reflexivity.
  - unfold wait_task, try_catch, call_addDevice.
    destruct (addDevice event (user (assign_lock cell None w))) as [u [|what]];
      simpl; rewrite ?filter_app; simpl; rewrite ?app_nil_r;
      rewrite <- (observed_assign_lock cell None w); reflexivity.
Qed.

Lemma observed_ready (w : World) :
  observed (ready w) = observed w ++ [Cmd Receiver_enumerate].
Proof.
  destruct w as [[ps de [c|] [d|] [p|] [s|]] rh hh n lk ts ob us]; reflexivity.
Qed.

(** X12: [addDevice] and [removeDevice] are called by tasks only: no
    delivery of a report, raw or decoded, and no call of [ready],
    [waitForDevice], [_startPair] or [_stopPair] calls them.  [pairReady]
    is called only while a decoded report is being delivered: no task
    and no other operation calls it. *)
Theorem hooks_called_where_designed (a : Action) (w w' : World) :
  step a w = Some w' ->
  (is_task_action a = false ->
   filter is_device_hook (observed w') = filter is_device_hook (observed w)) /\
  (is_hidpp_action a = false ->
   filter is_pair_hook (observed w') = filter is_pair_hook (observed w)).
Proof.
  destruct a as [r | r | i | | idx | t | ]; simpl; intros X;
    try (injection X as <-); (split; intros Ha; try discriminate Ha).
  - unfold deliver_raw in X. apply run_raw_handlers_enqueues in X.
    subst w'. reflexivity.
  - unfold deliver_raw in X. apply run_raw_handlers_enqueues in X.
    subst w'. reflexivity.
  - apply run_hidpp_handlers_device_hooks.
  - unfold run_pending. destruct (nth_error (tasks w) i) as [t|];
      [|reflexivity].
    rewrite exec_task_pair_hooks. reflexivity.
  - rewrite observed_ready, filter_app, app_nil_r. reflexivity.
  - rewrite observed_ready, filter_app, app_nil_r. reflexivity.
  - destruct (waitForDevice_fields idx w) as (_ & _ & _ & _ & _ & _ & E).
    rewrite E. reflexivity.
  - destruct (waitForDevice_fields idx w) as (_ & _ & _ & _ & _ & _ & E).
    rewrite E. reflexivity.
  - unfold _startPair. destruct bolt; simpl;
      rewrite filter_app, app_nil_r; reflexivity.
  - unfold _startPair. destruct bolt; simpl;
      rewrite filter_app, app_nil_r; reflexivity.
  - unfold _stopPair. destruct (_pair_state (this w)); simpl;
      rewrite ?filter_app, ?app_nil_r; reflexivity.
  - unfold _stopPair. destruct (_pair_state (this w)); simpl;
      rewrite ?filter_app, ?app_nil_r; reflexivity.
Qed.

End Properties.

(** * The properties at concrete inputs *)

Lemma startPair_from_NotPairing_witness :
  (_pair_state (this (demo_new true)) = NotPairing /\
   _pair_state (this (_startPair (R := demo_receiver true) 30 (demo_new true)))
   = Discovering /\
   _discovery_event
     (this (_startPair (R := demo_receiver true) 30 (demo_new true))) = []) /\
  (_pair_state (this (demo_new false)) = NotPairing /\
   _pair_state (this (_startPair (R := demo_receiver false) 30 (demo_new false)))
   = Pairing /\
   since (demo_new false)
     (_startPair (R := demo_receiver false) 30 (demo_new false))
   = [Cmd (startPairing 30)]).
Proof.
  split; (split; [reflexivity|]).
  - exact (startPair_from_NotPairing (R := demo_receiver true) 30
             (demo_new true) eq_refl).
  - exact (startPair_from_NotPairing (R := demo_receiver false) 30
             (demo_new false) eq_refl).
Defined.

(** Two device-discovered reports in a row: the first leaves the record
    incomplete, the second completes it. *)
Lemma discover_callback_filled_iff_witness :
  let discovered w :=
    fst (discover_callback (R := demo_receiver true) discovered_report w) in
  let w0 := _startPair (R := demo_receiver true) 0 (demo_new true) in
  let w1 := discovered w0 in
  let w2 := discovered w1 in
  (_pair_state (this w0) = Discovering /\
   _pair_state (this w1) = Discovering /\ tasks w1 = []) /\
  (_pair_state (this w1) = Discovering /\
   _pair_state (this w2) = FindingPasskey /\
   tasks w2 = [BoltPairingTask [0xff; 0xff]]).
Proof.
  intros discovered w0 w1 w2. split; (split; [reflexivity|]).
  - pose proof (discover_callback_filled_iff (K := hidpp_constants)
                  (R := demo_receiver true) (H := demo_hooks)
                  discovered_report w0 eq_refl) as P.
    exact (proj2 (proj2 (proj2 (proj2 P)))).
  - pose proof (discover_callback_filled_iff (K := hidpp_constants)
                  (R := demo_receiver true) (H := demo_hooks)
                  discovered_report w1 eq_refl) as P.
    exact (conj (proj1 (proj2 (proj2 (proj2 (proj2 P)))))
             (proj1 (proj2 (proj2 (proj2 (proj2 (proj2 P))))))).
Defined.

Lemma lifecycle_task_exactly_one_hook_witness :
  let report := Report_of_raw (H := hidpp_constants) connection_report in
  let w := demo_new true in
  0x41 <> 0x40 /\
  connect_predicate (K := hidpp_constants) connection_report = Some true /\
  tasks (connect_callback (K := hidpp_constants) (R := demo_receiver true)
           connection_report w)
  = [LifecycleTask report "/dev/hidraw0"] /\
  hook_calls
    (since w
       (fst (lifecycle_task (K := hidpp_constants) (R := demo_receiver true)
               (H := demo_hooks) report "/dev/hidraw0" w)))
  = [CallAddDevice {| index := 1; linkEstablished := true;
                      withPayload := true; fromTimeoutCheck := false |}].
Proof.
  intros report w.
  assert (Hne : 0x41 <> 0x40) by discriminate.
  split; [exact Hne|]. split; [reflexivity|].
  pose proof (lifecycle_task_exactly_one_hook (K := hidpp_constants)
                (R := demo_receiver true) (H := demo_hooks)
                connection_report w w Hne eq_refl) as P.
  split; [exact (proj1 (proj2 P))|].
  destruct (proj2 (proj2 (proj2 (proj2 P)))) as [[_ Q] | [Q _]].
  - exact Q.
  - discriminate Q.
Defined.

(** Against C1 as stated: two reports of device 1 arrive before any task
    runs; two tasks are queued, and both call [addDevice]. *)
Lemma waitForDevice_dispatched_twice :
  let w1 := waitForDevice 1 (demo_new true) in
  option_map (wait_tasks 0)
    (demo_run true [ARaw traffic_report; ARaw traffic_report] w1)
  = Some 2%nat /\
  option_map (fun w => hook_calls (since w1 w))
    (demo_run true
       [ARaw traffic_report; ARaw traffic_report; ATask 0; ATask 0] w1)
  = Some [CallAddDevice (synthesized_event 1);
          CallAddDevice (synthesized_event 1)].
Proof. split; reflexivity. Qed.

(** A second schedule with the same outcome: a report of device 1
    arrives, and its task runs, after the handler is registered and
    before the lock is stored in the cell.  The task finds the cell
    empty and releases nothing; the lock is stored afterwards; the
    handler, still registered, fires again on the next report. *)
Lemma waitForDevice_outlives_early_task :
  let r := waitForDevice_register 1 (demo_new true) in
  let cell := fst (fst r) in
  let lock := snd (fst r) in
  match demo_run true [ARaw traffic_report; ATask 0] (snd r) with
  | Some w2 =>
      let w3 := waitForDevice_store cell lock w2 in
      raw_handlers w3 = [(lock, WaitHandler 1 cell)] /\
      option_map (fun w => hook_calls (since (snd r) w))
        (demo_run true [ARaw traffic_report; ATask 0] w3)
      = Some [CallAddDevice (synthesized_event 1);
              CallAddDevice (synthesized_event 1)]
  | None => False
  end.
Proof. vm_compute. split; reflexivity. Qed.

(** Against C2 as stated: on a Bolt receiver [_startPair] in state
    [FindingPasskey] moves to [Discovering], which is no edge of §4.2. *)
Lemma startPair_leaves_FindingPasskey :
  let ops := [OpStartPair 0; OpDiscovered discovered_report;
              OpDiscovered discovered_report] in
  let w := demo_apply true ops (demo_new true) in
  _pair_state (this w) = FindingPasskey /\
  _pair_state (this (demo_apply true [OpStartPair 0] w)) = Discovering /\
  graph_4_2 true FindingPasskey TStartPair Discovering = false /\
  demo_follows true (graph_4_2 true) (ops ++ [OpStartPair 0]) (demo_new true)
  = false.
Proof. repeat split. Qed.

(** ** The further properties at concrete inputs *)

Lemma raw_delivery_only_queues_witness :
  let w := waitForDevice 1 (ready (demo_new true)) in
  let w' :=
    with_tasks
      [LifecycleTask (Report_of_raw (H := hidpp_constants) connection_report)
         "/dev/hidraw0";
       WaitTask (synthesized_event 1) 0] w in
  deliver_raw (K := hidpp_constants) (R := demo_receiver true)
    connection_report w = Some w' /\
  observed w' = observed w /\ registration w' = registration w.
Proof.
  intros w w'. split; [reflexivity|].
  pose proof (raw_delivery_only_queues (K := hidpp_constants)
                (R := demo_receiver true) connection_report w w' eq_refl) as P.
  exact (conj (proj1 P) (proj1 (proj2 (proj2 (proj2 P))))).
Defined.

Lemma idle_monitor_ignores_reports_witness :
  let w := ready (demo_new true) in
  _pair_state (this w) = NotPairing /\
  deliver_hidpp (K := hidpp_constants) (R := demo_receiver true)
    (H := demo_hooks) passkey_report w = (w, Returned).
Proof.
  intros w. split; [reflexivity|].
  exact (idle_monitor_ignores_reports (K := hidpp_constants)
           (R := demo_receiver true) (H := demo_hooks) passkey_report w
           eq_refl).
Defined.

Lemma discovery_queues_one_task_witness :
  let w := _startPair (R := demo_receiver true) 0 (demo_new true) in
  let w' :=
    discover_all (R := demo_receiver true)
      [discovered_report; discovered_report; discovered_report] w in
  _pair_state (this w) = Discovering /\
  _pair_state (this w') = FindingPasskey /\
  tasks w' = [BoltPairingTask [0xff; 0xff]].
Proof.
  intros w w'. split; [reflexivity|].
  pose proof (discovery_queues_one_task (R := demo_receiver true)
                [discovered_report; discovered_report; discovered_report]
                [] w eq_refl) as P.
  exact (conj (proj1 (proj2 P)) (proj1 (proj2 (proj2 P)))).
Defined.

Lemma pair_status_callback_only_cancels_witness :
  let w :=
    _startPair (R := demo_receiver false) 0 (demo_new false) in
  event_ids_distinct (K := hidpp_constants) = true /\
  _pair_state (this w) = Pairing /\
  _pair_state
    (this (fst (pair_status_callback (K := hidpp_constants)
                  (R := demo_receiver false) pairing_ended_report w)))
  = NotPairing /\
  observed
    (fst (pair_status_callback (K := hidpp_constants)
            (R := demo_receiver false) pairing_ended_report w))
  = observed w.
Proof.
  intros w. split; [reflexivity|]. split; [reflexivity|].
  pose proof (pair_status_callback_only_cancels (K := hidpp_constants)
                (R := demo_receiver false)
                pairing_ended_report w eq_refl) as P.
  split; [|exact (proj1 (proj2 P))].
  apply (proj2 (proj2 (proj2 (proj2 (proj2 (proj2 P))))) (or_intror eq_refl)).
  left. split; reflexivity.
Defined.


Lemma legacy_receiver_never_discovers_witness :
  bolt (ReceiverClient := demo_receiver false) = false /\
  run (K := hidpp_constants) (R := demo_receiver false) (H := demo_hooks)
    legacy_actions (ReceiverMonitor_new (R := demo_receiver false) [])
  = Some legacy_final /\
  legacy_ok legacy_final = true.
Proof.
  assert (E : run (K := hidpp_constants) (R := demo_receiver false)
                (H := demo_hooks) legacy_actions
                (ReceiverMonitor_new (R := demo_receiver false) [])
              = Some legacy_final) by (vm_compute; reflexivity).
  split; [reflexivity|]. split; [exact E|].
  exact (legacy_receiver_never_discovers (K := hidpp_constants)
           (R := demo_receiver false) (H := demo_hooks) legacy_actions []
           legacy_final eq_refl E).
Defined.

Lemma handlers_registered_once_witness :
  run (K := hidpp_constants) (R := demo_receiver true) (H := demo_hooks)
    registration_actions_1 (ReceiverMonitor_new (R := demo_receiver true) [])
  = Some registration_world_1 /\
  run (K := hidpp_constants) (R := demo_receiver true) (H := demo_hooks)
    registration_actions_2 (ready registration_world_1)
  = Some registration_world_2 /\
  count_connect registration_world_2 = 1%nat /\
  count_hidpp PairStatusHandler registration_world_2 = 1%nat.
Proof.
  assert (E1 : run (K := hidpp_constants) (R := demo_receiver true)
                 (H := demo_hooks) registration_actions_1
                 (ReceiverMonitor_new (R := demo_receiver true) [])
               = Some registration_world_1) by (vm_compute; reflexivity).
  assert (E2 : run (K := hidpp_constants) (R := demo_receiver true)
                 (H := demo_hooks) registration_actions_2
                 (ready registration_world_1)
               = Some registration_world_2) by (vm_compute; reflexivity).
  split; [exact E1|]. split; [exact E2|].
  pose proof (handlers_registered_once (K := hidpp_constants)
                (R := demo_receiver true) (H := demo_hooks)
                registration_actions_1 registration_actions_2 []
                registration_world_1 registration_world_2 E1 E2) as P.
  exact (conj (proj1 (proj2 P)) (proj2 (proj2 (proj2 (proj2 P))))).
Defined.

Lemma bolt_pairing_flow_witness :
  let reports := [discovered_report; discovered_report] in
  let w := demo_new true in
  let w2 :=
    fst (passkey_callback (R := demo_receiver true) (H := demo_hooks)
           passkey_report
           (discover_all (R := demo_receiver true) reports
              (_startPair (R := demo_receiver true) 30 w))) in
  bolt (ReceiverClient := demo_receiver true) = true /\
  snd (fill_until_filled (R := demo_receiver true) [] reports) = true /\
  _pair_state (this w2) = Pairing /\
  since w w2
  = [Cmd (startDiscover 30);
     CallPairReady [0xff; 0xff] [0x31; 0x32; 0x33; 0x34; 0x35; 0x36]].
Proof.
  intros reports w w2. split; [reflexivity|]. split; [reflexivity|].
  pose proof (bolt_pairing_flow (R := demo_receiver true)
                (H := demo_hooks) 30 reports
                passkey_report w eq_refl eq_refl) as P.
  exact (conj (proj1 (proj2 P)) (proj2 (proj2 (proj2 P)))).
Defined.

Lemma hooks_called_where_designed_witness :
  let w := ready (demo_new true) in
  let w' :=
    with_tasks
      [LifecycleTask (Report_of_raw (H := hidpp_constants) connection_report)
         "/dev/hidraw0"] w in
  step (K := hidpp_constants) (R := demo_receiver true) (H := demo_hooks)
    (ARaw connection_report) w = Some w' /\
  filter is_device_hook (observed w') = filter is_device_hook (observed w).
Proof.
  intros w w'. split; [reflexivity|].
  exact (proj1 (hooks_called_where_designed (K := hidpp_constants)
                  (R := demo_receiver true) (H := demo_hooks)
                  (ARaw connection_report) w w' eq_refl) eq_refl).
Defined.
